(** * DS4CG: dataset adapters and the training/evaluation engine

    A shallow embedding of [src/datasets.py] and [src/engine.py].

    Python objects are modelled by the data they hold, Python exceptions by
    a result type, and the effects of a method (files opened, log lines,
    checkpoints written, parameters updated) by a state monad over a small
    world.  The deep-learning framework and the helper modules that the two
    files import are black boxes: they enter as parameters. *)

Set Warnings "-register-all".
From stdpp Require Import base gmap strings list numbers sorting.
From Stdlib Require Import Ascii ZArith QArith Qcanon.

Local Open Scope string_scope.
Local Open Scope list_scope.
Local Open Scope Z_scope.

(** * Python runtime: exceptions, results, the state-and-exception monad *)

Module Py.

(** Keys that a failed dictionary lookup reports. *)
Inductive key :=
| KStr (s : string)
| KInt (z : Z)
| KNone.

Inductive exn :=
| AttributeError (attr : string)
| KeyError (k : key)
| IndexError
| TypeError
| ZeroDivisionError
| StopIteration
| OSError (path : string)          (* FileNotFoundError, UnidentifiedImageError *)
| ValueError                       (* json.JSONDecodeError *)
| External (callee : string).      (* raised inside a callable we do not model *)

Inductive res (A : Type) :=
| Ok (a : A)
| Raise (e : exn).
Arguments Ok {A} a.
Arguments Raise {A} e.

Definition is_ok {A} (r : res A) : bool :=
  match r with Ok _ => true | Raise _ => false end.

#[global] Instance res_ret : MRet res := λ A, Ok.
#[global] Instance res_bind : MBind res := λ A B k r,
  match r with Ok a => k a | Raise e => Raise e end.

(** A computation reads and writes a world [W] and returns or raises. *)
Definition M (W A : Type) : Type := W → res A * W.

Definition ret {W A} (a : A) : M W A := λ w, (Ok a, w).

Definition raise {W A} (e : exn) : M W A := λ w, (Raise e, w).

Definition bind {W A B} (m : M W A) (k : A → M W B) : M W B :=
  λ w, match m w with
       | (Ok a, w') => k a w'
       | (Raise e, w') => (Raise e, w')
       end.

Definition lift {W A} (r : res A) : M W A := λ w, (r, w).

Definition modify {W} (f : W → W) : M W () := λ w, (Ok (), f w).

Definition gets {W A} (f : W → A) : M W A := λ w, (Ok (f w), w).

#[global] Instance M_ret {W} : MRet (M W) := λ A, ret.
#[global] Instance M_bind {W} : MBind (M W) := λ A B k m, bind m k.

(** [for x in l: s = body s x], the loop threading its local variables. *)
Fixpoint for_fold {W A S} (l : list A) (body : S → A → M W S) (s : S) : M W S :=
  match l with
  | [] => ret s
  | x :: l' => bind (body s x) (for_fold l' body)
  end.

(** [l[i]] on a list: negative indices count from the end. *)
Definition list_index {A} (l : list A) (i : Z) : res A :=
  let n := Z.of_nat (length l) in
  let j := if i <? 0 then i + n else i in
  if j <? 0 then Raise IndexError
  else match l !! Z.to_nat j with
       | Some x => Ok x
       | None => Raise IndexError
       end.

(** [range(a, b)] *)
Definition range (a b : Z) : list Z := seqZ a (b - a).

(** A dict display [{k1: v1, k2: v2, ...}]: a later entry overrides. *)
Definition dict_display `{Countable K} {V} (l : list (K * V)) : gmap K V :=
  foldl (λ m kv, <[kv.1 := kv.2]> m) ∅ l.

(** [os.path.join(a, b)] of posixpath. *)
Definition ends_with_sep (a : string) : bool :=
  match String.get (String.length a - 1) a with
  | Some c => bool_decide (c = "/"%char)
  | None => false
  end.

Definition path_join (a b : string) : string :=
  if String.prefix "/" b then b
  else if bool_decide (a = "") || ends_with_sep a then a +:+ b
  else a +:+ "/" +:+ b.

End Py.
Import Py.

(** * src.utils.util

    The module is imported by both files and is not among the sources.  Of
    its logger only one thing matters here: which methods it answers to.
    A call of any other method raises [AttributeError], as for every Python
    object. *)

Module util.

Record logger := Logger { methods : gset string }.

Definition getattr (log : logger) (name : string) : res () :=
  if decide (name ∈ methods log) then Ok () else Raise (AttributeError name).

End util.

(** * src/datasets.py *)

(** What [json.load] returns.  Numbers of the annotation files are
    integers. *)
Inductive json :=
| JNull
| JBool (b : bool)
| JNum (z : Z)
| JStr (s : string)
| JArr (l : list json)
| JObj (d : gmap string json).

Module NACTI.
Section NACTI.

(** Decoded images are values of the imaging library. *)
Context {image : Type}.
Variable log : util.logger.

Inductive file :=
| JsonFile (j : json)
| ImageFile (i : image)
| OtherFile.

Inductive event :=
| Open (path : string)
| ImageOpen (path : string)
| Log (level msg : string).

Record world := World { fs : gmap string file; trace : list event }.

Definition emit (e : event) : M world () :=
  modify (λ w, World (fs w) (trace w ++ [e])).

Definition log_call (level msg : string) : M world () :=
  _ ← lift (util.getattr log level); emit (Log level msg).

(** [open(path, 'r')] *)
Definition open (path : string) : M world file :=
  _ ← emit (Open path);
  files ← gets fs;
  match files !! path with
  | Some f => mret f
  | None => raise (OSError path)
  end.

Definition json_load (f : file) : res json :=
  match f with
  | JsonFile j => Ok j
  | _ => Raise ValueError
  end.

(** [Image.open(path)] *)
Definition Image_open (path : string) : M world image :=
  _ ← emit (ImageOpen path);
  files ← gets fs;
  match files !! path with
  | Some (ImageFile i) => mret i
  | _ => raise (OSError path)
  end.

(** [j[k]] for a string [k] and [j[i]] for an integer [i]. *)
Definition subscript (j : json) (k : string) : res json :=
  match j with
  | JObj d => match d !! k with
              | Some v => Ok v
              | None => Raise (KeyError (KStr k))
              end
  | _ => Raise TypeError
  end.

Definition subscript_int (j : json) (i : Z) : res json :=
  match j with
  | JArr l => list_index l i
  | JObj _ => Raise (KeyError (KInt i))
  | JStr s => match list_index (String.list_ascii_of_string s) i with
              | Ok c => Ok (JStr (String c ""))
              | Raise e => Raise e
              end
  | _ => Raise TypeError
  end.

Definition len (j : json) : res nat :=
  match j with
  | JArr l => Ok (length l)
  | JObj d => Ok (size d)
  | JStr s => Ok (String.length s)
  | _ => Raise TypeError
  end.

Definition as_str (j : json) : res string :=
  match j with JStr s => Ok s | _ => Raise TypeError end.

(** 0: not animal, 1: animal *)
Definition BINARY : gmap Z Z := dict_display
  [(1,1); (3,1); (4,1); (5,1); (6,1); (7,1); (9,1); (10,1); (11,1); (12,1); (13,1);
   (14,1); (15,1); (16,0); (17,1); (18,1); (19,1); (21,1); (22,1); (23,1); (24,1);
   (26,1); (27,1); (28,1); (29,1); (30,1); (31,1); (32,1); (33,1); (34,1); (35,1);
   (36,1); (37,1); (38,1); (40,1); (41,1); (42,1); (43,1); (44,1); (46,1); (47,1);
   (50,1); (53,1); (54,1); (55,1); (56,1); (57,1); (58,1); (59,1); (60,1); (62,1);
   (63,1); (64,1); (65,1); (66,1); (67,1); (68,0); (69,1); (70,1)].

Definition MULTI : gmap Z Z := dict_display [].

Definition LABEL_TYPES : gmap string (gmap Z Z) :=
  dict_display [("binary", BINARY); ("multi", MULTI)].

(** [label_map[original_label]]: a bool is the integer 1 or 0 as a key, a
    list or a dict cannot be hashed. *)
Definition label_lookup (label_map : gmap Z Z) (original_label : json) : res Z :=
  let at_int z := match label_map !! z with
                  | Some v => Ok v
                  | None => Raise (KeyError (KInt z))
                  end in
  match original_label with
  | JNum z => at_int z
  | JBool b => at_int (Z.b2z b)
  | JStr s => Raise (KeyError (KStr s))
  | JNull => Raise (KeyError KNone)
  | JArr _ | JObj _ => Raise TypeError
  end.

(** The attributes [__init__] assigns. *)
Record t := Build {
  data_dir : string;
  metadata : json;
  label_map : gmap Z Z;
  transform : option (image → res image)
}.

(** [NACTI.__init__], datasets.py lines 19-33. *)
Definition __init__ (data_dir label_type : string)
    (transform : option (image → res image)) : M world t :=
  (* load meta data *)
  let metadata_path := path_join data_dir "nacti_metadata_tmp.json" in
  f ← open metadata_path;
  metadata ← lift (json_load f);
  (* initialize label map from the original label to a new label *)
  _ ← (if decide (label_type ∈ dom LABEL_TYPES) then mret ()
       else log_call "error" "Specify right type for NACTI dataset - binary or multi");
  label_map ← match LABEL_TYPES !! label_type with
              | Some m => mret m
              | None => raise (KeyError (KStr label_type))
              end;
  mret (Build data_dir metadata label_map transform).

(** [NACTI.__len__], lines 35-36. *)
Definition __len__ (self : t) : res nat :=
  annotations ← subscript (metadata self) "annotations";
  len annotations.

(** [NACTI.__getitem__], lines 38-51. *)
Definition __getitem__ (self : t) (idx : Z) : M world (image * Z) :=
  (* read an image *)
  images ← lift (subscript (metadata self) "images");
  entry ← lift (subscript_int images idx);
  file_name ← lift (file_name ← subscript entry "file_name"; as_str file_name);
  let image_path := path_join (data_dir self) file_name in
  image ← Image_open image_path;
  (* get a label *)
  annotations ← lift (subscript (metadata self) "annotations");
  annotation ← lift (subscript_int annotations idx);
  original_label ← lift (subscript annotation "category_id");
  label ← lift (label_lookup (label_map self) original_label);
  image ← match transform self with
          | Some f => lift (f image)
          | None => mret image
          end;
  mret (image, label).



(** The label that lines 45-46 of [__getitem__] compute for [idx]. *)
Definition label_of (self : t) (idx : Z) : res Z :=
  annotations ← subscript (metadata self) "annotations";
  annotation ← subscript_int annotations idx;
  original_label ← subscript annotation "category_id";
  label_lookup (label_map self) original_label.

(** The annotation file has an array of annotations, each with an integer
    [category_id]; [cats] lists them. *)
Definition annotated (self : t) (cats : list Z) : Prop :=
  ∃ anns, subscript (metadata self) "annotations" = Ok (JArr anns) ∧
    Forall2 (λ a c, subscript a "category_id" = Ok (JNum c)) anns cats.

Definition image_opens (tr : list event) : list string :=
  omap (λ e, match e with ImageOpen p => Some p | _ => None end) tr.

End NACTI.
End NACTI.

(** * The framework behind src/engine.py

    [torch] is a black box.  What the engine uses of it is collected in one
    interface: the arithmetic of Python floats and scalar tensors, tensors
    with their batch dimension, and the network (parameters, optimizer state
    and train/eval mode) with the calls the engine makes on it.  Nothing is
    assumed about any of these operations. *)

Class Torch := {
  float : Type;
  f0 : float;                                   (* 0.0 *)
  f0_4 : float;                                 (* 0.4 *)
  fadd : float → float → float;
  fmul : float → float → float;
  fdiv : float → float → float;
  of_nat : nat → float;                         (* an int in float arithmetic *)
  fgt : float → float → bool;                   (* x > y *)
  tensor : Type;
  size0 : tensor → nat;                         (* t.size(0) *)
  unsqueeze_float : tensor → tensor;            (* t.unsqueeze(-1).float() *)
  argmax : tensor → tensor;                     (* torch.max(t, 1)[1] *)
  sigmoid : tensor → tensor;
  gt_half : tensor → tensor;                    (* torch.gt(t, 0.5) *)
  count_equal : tensor → tensor → nat;          (* torch.sum(p == t.data) *)
  net : Type;
  train_mode : net → net;                       (* model.train() *)
  eval_mode : net → net;                        (* model.eval() *)
  call : net → tensor → tensor;                 (* model(inputs) *)
  call_aux : net → tensor → tensor * tensor;    (* model(inputs) of inception *)
  criterion : tensor → tensor → float;          (* criterion(outputs, labels) *)
  (* optimizer.zero_grad(); loss.backward(); optimizer.step() *)
  backward_step : bool → net → tensor → tensor → net;
  data_parallel : net → net                     (* torch.nn.DataParallel(model) *)
}.

Section Objects.
Context `{Torch}.

(** A data-loading pipeline of one split: its batches of (inputs, labels)
    and the length of the dataset behind it. *)
Record loader := Loader {
  batches : list (tensor * tensor);
  dataset_len : nat
}.

(** Python values held in attributes, configurations and [misc]. *)
Inductive value :=
| VNone
| VBool (b : bool)
| VInt (z : Z)
| VStr (s : string)
| VDict (d : gmap string value)
| VLoader (l : loader)
| VObject (class : string).        (* a framework object; its state is in the world *)

(** An instance is its [__dict__], a [gmap string value].  [self.name] *)
Definition getattr (self : gmap string value) (name : string) : res value :=
  match self !! name with
  | Some v => Ok v
  | None => Raise (AttributeError name)
  end.

(** [self.name = v] *)
Definition setattr (self : gmap string value) (name : string) (v : value)
    : gmap string value :=
  <[name := v]> self.

(** [v[k]] *)
Definition subscript (v : value) (k : string) : res value :=
  match v with
  | VDict d => match d !! k with
               | Some x => Ok x
               | None => Raise (KeyError (KStr k))
               end
  | _ => Raise TypeError
  end.

(** [v.get(k, default)] *)
Definition get (v : value) (k : string) (default : value) : res value :=
  match v with
  | VDict d => Ok (match d !! k with Some x => x | None => default end)
  | _ => Raise (AttributeError "get")
  end.

(** An operand of an integer comparison or of [range]. *)
Definition as_int (v : value) : res Z :=
  match v with
  | VInt z => Ok z
  | VBool b => Ok (Z.b2z b)
  | _ => Raise TypeError
  end.

Definition as_loader (v : value) : res loader :=
  match v with
  | VLoader l => Ok l
  | _ => Raise TypeError
  end.

(** Truth value of [v] in [if v:]. *)
Definition truthy (v : value) : bool :=
  match v with
  | VNone => false
  | VBool b => b
  | VInt z => negb (z =? 0)
  | VStr s => negb (bool_decide (s = ""))
  | VDict d => negb (bool_decide (d = ∅))
  | VLoader l => negb (bool_decide (batches l = []))
  | VObject _ => true
  end.

Definition is_None (v : value) : bool :=
  match v with VNone => true | _ => false end.

(** [x / n] for a Python float [x] and an int [n]. *)
Definition py_div (x : float) (n : nat) : res float :=
  if decide (n = 0%nat) then Raise ZeroDivisionError else Ok (fdiv x (of_nat n)).

(** [num_corrects] starts as the int 0 and becomes a tensor with the first
    [+= torch.sum(...)]; only a tensor has [.double()]. *)
Inductive count :=
| IntCount (n : nat)
| TensorCount (n : nat).

Definition count_add (c : count) (n : nat) : count :=
  match c with
  | IntCount m | TensorCount m => TensorCount (m + n)
  end.

Definition double (c : count) : res nat :=
  match c with
  | TensorCount n => Ok n
  | IntCount _ => Raise (AttributeError "double")
  end.

(** Arguments of a formatted log line; elapsed wall-clock time is not
    modelled. *)
Inductive arg :=
| AInt (z : Z)
| AFloat (x : float)
| ATime.

Inductive event :=
| Log (level fmt : string) (args : list arg)
| Save (path : string) (epoch : Z) (state : net)          (* torch.save *)
| SaveRoc (probabilities labels : tensor).

(** The world of an engine: the network, how many batches [.next()] has
    drawn from the evaluation split, and what has been logged and written. *)
Record world := World {
  model : net;
  drawn : nat;
  trace : list event
}.

Definition emit (e : event) : M world () :=
  modify (λ w, World (model w) (drawn w) (trace w ++ [e])).

Definition update_model (f : net → net) : M world () :=
  modify (λ w, World (f (model w)) (drawn w) (trace w)).

(** [loader.next()] *)
Definition next (l : loader) : M world (tensor * tensor) :=
  n ← gets drawn;
  match batches l !! n with
  | Some b =>
      _ ← modify (λ w, World (model w) (S (drawn w)) (trace w));
      mret b
  | None => raise StopIteration
  end.

(** [src.utils.util], [src.builders] and the state of [torch.cuda]: the
    modules are not among the sources and enter as parameters. *)
Record env := Env {
  log : util.logger;
  load_config : string → res value;
  generate_tag : string → value;
  setup : value → res ();
  save_path : value → value → value → res string;
  dataset_builder_build : value → res value;
  model_builder_build : value → res (net * value);
  optimizer_builder_build : value → net → value → res net;
  criterion_builder_build : value → res ();
  cuda_is_available : bool;
  cuda_device_count : nat
}.

Definition log_call (E : env) (level fmt : string) (args : list arg) : M world () :=
  _ ← lift (util.getattr (log E) level); emit (Log level fmt args).

End Objects.

Module BaseEngine.
Section BaseEngine.
Context `{Torch}.
Variable E : env.

(** [BaseEngine.__init__], engine.py lines 18-28. *)
Definition __init__ (config tag : string) : M world (gmap string value) :=
  cfg ← lift (load_config E config);
  let self := setattr ∅ "config" cfg in
  let self := setattr self "tag" (generate_tag E tag) in
  let device := if cuda_is_available E then "cuda" else "cpu" in
  let self := setattr self "device" (VStr device) in
  _ ← (if bool_decide (device = "cpu")
       then log_call E "warn" "GPU is not available. Please check the configuration." []
       else log_call E "ward" "GPU is available." []);
  mret self.

End BaseEngine.
End BaseEngine.

Module Engine.
Section Engine.
Context `{Torch}.
Variable E : env.

(** [Engine.__init__], lines 54-76. *)
Definition __init__ (config tag : string) : M world (gmap string value) :=
  self ← BaseEngine.__init__ E config tag;
  (* build dataloader/model *)
  cfg ← lift (getattr self "config");
  data_cfg ← lift (subscript cfg "data");
  dataloader ← lift (dataset_builder_build E data_cfg);
  let self := setattr self "dataloader" dataloader in
  model_cfg ← lift (subscript cfg "model");
  '(m, misc) ← lift (model_builder_build E model_cfg);
  _ ← update_model (λ _, m);
  let self := setattr self "model" (VObject "model") in
  _ ← (if (1 <? cuda_device_count E)%nat
       then _ ← update_model data_parallel;
            log_call E "warn" "{} GPUs will be used." [AInt (Z.of_nat (cuda_device_count E))]
       else mret ());
  _ ← lift (getattr self "device");
  (* misc information *)
  model_name ← lift (subscript misc "model_name");
  let self := setattr self "model_name" model_name in
  num_classes ← lift (subscript misc "num_classes");
  let self := setattr self "num_classes" num_classes in
  checkpoint ← lift (get misc "checkpoint" VNone);
  let self := setattr self "checkpoint" checkpoint in
  is_inception ← lift (get misc "is_inception" (VBool false));
  let self := setattr self "is_inception" is_inception in
  (* build optimizer/criterion *)
  train_cfg ← lift (subscript cfg "train");
  m ← gets model;
  m ← lift (optimizer_builder_build E train_cfg m checkpoint);
  _ ← update_model (λ _, m);
  let self := setattr self "optimizer" (VObject "optimizer") in
  train_cfg ← lift (subscript cfg "train");
  _ ← lift (criterion_builder_build E train_cfg);
  let self := setattr self "criterion" (VObject "criterion") in
  train_cfg ← lift (subscript cfg "train");
  _ ← lift (setup E train_cfg);
  mret self.

(** The split [self.dataloader[name]]. *)
Definition split (self : gmap string value) (name : string) : res loader :=
  dataloader ← getattr self "dataloader";
  l ← subscript dataloader name;
  as_loader l.

(** [Engine._train_one_epoch], lines 119-154. *)
Definition _train_one_epoch (self : gmap string value) : M world float :=
  (* total_loss, num_corrects = 0.0, 0 *)
  train ← lift (split self "train");
  let num_batches := length (batches train) in
  _ ← lift (getattr self "model");
  _ ← update_model train_mode;
  train ← lift (split self "train");
  total_loss ← for_fold (imap (λ i b, (i, b)) (batches train))
    (λ total_loss '(i, (inputs, labels)),
       _ ← lift (getattr self "device");
       let labels := unsqueeze_float labels in
       _ ← lift (getattr self "optimizer");
       (* Forward propagation *)
       is_inception ← lift (getattr self "is_inception");
       _ ← lift (getattr self "model");
       _ ← lift (getattr self "criterion");
       m ← gets model;
       let loss :=
         if truthy is_inception then
           let '(outputs, aux_outputs) := call_aux m inputs in
           fadd (criterion outputs labels) (fmul f0_4 (criterion aux_outputs labels))
         else
           let outputs := call m inputs in
           criterion outputs labels in
       (* Backward propagation *)
       _ ← lift (getattr self "optimizer");
       _ ← update_model (λ m, backward_step (truthy is_inception) m inputs labels);
       (* Statistics *)
       let total_loss := fadd total_loss (fmul loss (of_nat (size0 inputs))) in
       _ ← log_call E "info" "Train batch {}/{} - loss: {:4f}"
             [AInt (Z.of_nat i); AInt (Z.of_nat num_batches); AFloat loss];
       mret total_loss)
    f0;
  train ← lift (split self "train");
  lift (py_div total_loss (dataset_len train)).

(** [self.num_clsses > 1], lines 170 and 199 ("Use softmax when the num of
    classes > 1 else sigmoid"). *)
Definition more_than_one_class (self : gmap string value) : res bool :=
  num_clsses ← getattr self "num_clsses";
  n ← as_int num_clsses;
  mret (1 <? n).

(** [Engine._val], lines 157-182. *)
Definition _val (self : gmap string value) : M world (float * float) :=
  (* total_loss, num_corrects = 0.0, 0 *)
  _ ← lift (getattr self "model");
  _ ← update_model eval_mode;
  val ← lift (split self "val");
  '(total_loss, num_corrects) ← for_fold (batches val)
    (λ '(total_loss, num_corrects) '(inputs, labels),
       _ ← lift (getattr self "device");
       let labels := unsqueeze_float labels in
       (* Forward propagation *)
       _ ← lift (getattr self "model");
       m ← gets model;
       let outputs := call m inputs in
       _ ← lift (getattr self "criterion");
       let loss := criterion outputs labels in
       multi ← lift (more_than_one_class self);
       let predictions :=
         if multi : bool then argmax outputs
         else let probabilities := sigmoid outputs in gt_half probabilities in
       (* Statistics *)
       let total_loss := fadd total_loss (fmul loss (of_nat (size0 inputs))) in
       let num_corrects := count_add num_corrects (count_equal predictions labels) in
       mret (total_loss, num_corrects))
    (f0, IntCount 0);
  val ← lift (split self "val");
  val_loss ← lift (py_div total_loss (dataset_len val));
  num_corrects ← lift (double num_corrects);
  val ← lift (split self "val");
  let val_acc := fdiv (of_nat num_corrects) (of_nat (dataset_len val)) in
  mret (val_loss, val_acc).

(** [Engine._eval], lines 185-214. *)
Definition _eval (self : gmap string value) (eval_config : value)
    : M world (float * float) :=
  use_roc ← lift (get eval_config "use_roc" (VBool false));
  (* total_loss, num_corrects = 0.0, 0 *)
  _ ← lift (getattr self "model");
  _ ← update_model eval_mode;
  eval ← lift (split self "eval");
  '(inputs, labels) ← next eval;
  _ ← lift (getattr self "device");
  let labels := unsqueeze_float labels in
  (* Forward propagation *)
  _ ← lift (getattr self "model");
  m ← gets model;
  let outputs := call m inputs in
  _ ← lift (getattr self "criterion");
  let loss := criterion outputs labels in
  multi ← lift (more_than_one_class self);
  predictions ←
    (if multi : bool then mret (argmax outputs)
     else
       let probabilities := sigmoid outputs in
       let predictions := gt_half probabilities in
       _ ← (if truthy use_roc then emit (SaveRoc probabilities labels) else mret ());
       mret predictions);
  (* Statistics *)
  let total_loss := fadd f0 (fmul loss (of_nat (size0 inputs))) in
  let num_corrects := count_add (IntCount 0) (count_equal predictions labels) in
  eval ← lift (split self "eval");
  eval_loss ← lift (py_div total_loss (dataset_len eval));
  num_corrects ← lift (double num_corrects);
  eval ← lift (split self "eval");
  let eval_acc := fdiv (of_nat num_corrects) (of_nat (dataset_len eval)) in
  mret (eval_loss, eval_acc).

(** [Engine._save_model], lines 217-224. *)
Definition _save_model (self : gmap string value) (save_dir : value) (epoch : Z)
    : M world () :=
  model_name ← lift (getattr self "model_name");
  tag ← lift (getattr self "tag");
  checkpoint_path ← lift (save_path E save_dir model_name tag);
  _ ← lift (getattr self "model");
  _ ← lift (getattr self "optimizer");
  m ← gets model;
  emit (Save checkpoint_path epoch m).

(** The epoch bounds of [_train], lines 81-84: [(start_epoch, num_epochs)]. *)
Definition epoch_bounds (self : gmap string value) (train_config : value)
    : res (Z * Z) :=
  checkpoint ← getattr self "checkpoint";
  start_epoch ← (if is_None checkpoint then mret (VInt 0)
                 else subscript checkpoint "epoch");
  num_epochs ← get train_config "num_epochs" (VInt 50);
  num_epochs ← as_int num_epochs;
  start_epoch ← as_int start_epoch;
  let num_epochs := if num_epochs <? start_epoch then start_epoch + 50 else num_epochs in
  mret (start_epoch, num_epochs).

(** The body of the epoch loop, lines 94-116, on its local variables
    [(val_accuracies, best_acc)]. *)
Definition epoch_body (self : gmap string value) (save_dir : value)
    (locals : list float * float) (epoch : Z) : M world (list float * float) :=
  let '(val_accuracies, best_acc) := locals in
  train_loss ← _train_one_epoch self;
  _ ← log_call E "info" "Epoch {} completed in {} - train loss: {:4f}"
        [AInt epoch; ATime; AFloat train_loss];
  '(val_loss, val_acc) ← _val self;
  (* save the best model *)
  best_acc ← (if fgt val_acc best_acc
              then _ ← _save_model self save_dir epoch; mret val_acc
              else mret best_acc);
  let val_accuracies := val_accuracies ++ [val_acc] in
  _ ← log_call E "infov"
        "Epoch {} completed in {} - val loss: {:4f}, val accuracy {:4f}"
        [AInt epoch; ATime; AFloat val_loss; AFloat val_acc];
  mret (val_accuracies, best_acc).

(** [Engine._train], lines 78-116. *)
Definition _train (self : gmap string value) (train_config : value) : M world () :=
  save_dir ← lift (get train_config "save_dir" (VStr "checkpoints"));
  '(start_epoch, num_epochs) ← lift (epoch_bounds self train_config);
  _ ← log_call E "info" "Training for {} epochs starts from epoch {}"
        [AInt num_epochs; AInt start_epoch];
  _ ← for_fold (range start_epoch num_epochs) (epoch_body self save_dir) ([], f0);
  mret ().

(** [train] and [eval], lines 30-31 and 41-42, inherited from
    [BaseEngine]; [self._train] and [self._eval] are the methods above.
    Neither returns a value. *)
Definition train (self : gmap string value) : M world () :=
  config ← lift (getattr self "config");
  train_config ← lift (subscript config "train");
  _train self train_config.

Definition eval (self : gmap string value) : M world () :=
  config ← lift (getattr self "config");
  eval_config ← lift (subscript config "eval");
  _ ← _eval self eval_config;
  mret ().

End Engine.
End Engine.

(** * What a run shows, and the vocabulary of the statements *)

Section Observations.
Context `{Torch}.

(** Epochs of the checkpoints written, in the order of writing. *)
Definition saved_epochs (tr : list event) : list Z :=
  omap (λ e, match e with Save _ k _ => Some k | _ => None end) tr.

(** Epochs whose training pass completed: the lines
    'Epoch {} completed in {} - train loss: {:4f}'. *)
Definition trained_epochs (tr : list event) : list Z :=
  omap (λ e, match e with
             | Log _ fmt [AInt k; ATime; AFloat _] =>
                 if String.eqb fmt "Epoch {} completed in {} - train loss: {:4f}"
                 then Some k else None
             | _ => None
             end) tr.

(** Epochs validated with their validation accuracy: the lines
    'Epoch {} completed in {} - val loss: {:4f}, val accuracy {:4f}'. *)
Definition validated (tr : list event) : list (Z * float) :=
  omap (λ e, match e with
             | Log _ fmt [AInt k; ATime; AFloat _; AFloat a] =>
                 if String.eqb fmt
                      "Epoch {} completed in {} - val loss: {:4f}, val accuracy {:4f}"
                 then Some (k, a) else None
             | _ => None
             end) tr.

(** Log lines of batches: nothing of the three observations above. *)
Definition silent (tr : list event) : Prop :=
  saved_epochs tr = [] ∧ trained_epochs tr = [] ∧ validated tr = [].

(** A computation that writes checkpoints for epochs of [l] only, in the
    order of [l], whether it returns or raises. *)
Definition saves_in {A} (l : list Z) (m : M world A) : Prop :=
  ∀ w, ∃ new, trace (m w).2 = trace w ++ new ∧ saved_epochs new `sublist_of` l.

(** sum(batch_loss × batch_size), accumulated from 0.0 in batch order. *)
Definition weighted_sum (losses : list float) (sizes : list nat) : float :=
  foldl (λ total ls, fadd total (fmul ls.1 (of_nat ls.2))) f0 (zip losses sizes).

Definition sizes (bs : list (tensor * tensor)) : list nat :=
  (λ b, size0 b.1) <$> bs.

(** The loss of one training batch on network [m]. *)
Definition batch_loss (is_inception : bool) (m : net) (inputs labels : tensor) : float :=
  if is_inception then
    fadd (criterion (call_aux m inputs).1 labels)
         (fmul f0_4 (criterion (call_aux m inputs).2 labels))
  else criterion (call m inputs) labels.

(** The per-batch losses of a training pass that starts on network [m],
    and the network after it: every batch is followed by an optimizer
    step. *)
Fixpoint train_losses (is_inception : bool) (m : net) (bs : list (tensor * tensor))
    : list float :=
  match bs with
  | [] => []
  | (inputs, labels) :: bs' =>
      batch_loss is_inception m inputs (unsqueeze_float labels)
      :: train_losses is_inception
           (backward_step is_inception m inputs (unsqueeze_float labels)) bs'
  end.

Definition trained (is_inception : bool) (m : net) (bs : list (tensor * tensor)) : net :=
  foldl (λ m b, backward_step is_inception m b.1 (unsqueeze_float b.2)) m bs.

(** The per-batch losses and the number of correct predictions of a
    validation pass on network [m]. *)
Definition val_losses (m : net) (bs : list (tensor * tensor)) : list float :=
  (λ b, criterion (call m b.1) (unsqueeze_float b.2)) <$> bs.

Definition predict (multi : bool) (outputs : tensor) : tensor :=
  if multi then argmax outputs else gt_half (sigmoid outputs).

Definition corrects (multi : bool) (m : net) (bs : list (tensor * tensor)) : nat :=
  foldl (λ n b, (n + count_equal (predict multi (call m b.1)) (unsqueeze_float b.2))%nat)
        0%nat bs.

(** The epochs at which a run of accuracies improves on the best so far. *)
Fixpoint improvements (best : float) (l : list (Z * float)) : list Z :=
  match l with
  | [] => []
  | (k, a) :: l' =>
      if fgt a best then k :: improvements a l' else improvements best l'
  end.

(** An engine object on which the passes of an epoch run through: the
    splits are there and not empty, the attributes the passes read are
    assigned (among them the class count under the name the validation pass
    reads), and the logger and [save_path] answer. *)
Record ready (E : env) (self : gmap string value) (train val : loader) : Prop := {
  ready_train : Engine.split self "train" = Ok train;
  ready_val : Engine.split self "val" = Ok val;
  ready_train_len : dataset_len train ≠ 0%nat;
  ready_val_len : dataset_len val ≠ 0%nat;
  ready_val_batches : batches val ≠ [];
  ready_classes : is_ok (Engine.more_than_one_class self) = true;
  ready_attrs : ∀ a,
    a ∈ ["model"; "device"; "optimizer"; "criterion"; "is_inception";
         "model_name"; "tag"] → is_Some (self !! a);
  ready_info : "info" ∈ util.methods (log E);
  ready_infov : "infov" ∈ util.methods (log E);
  ready_save_path : ∀ d n t, is_ok (save_path E d n t) = true
}.

(** [>] on the floats that occur as accuracies is a strict weak order
    (no NaN among them). *)
Class FloatOrder : Prop := {
  fgt_asym x y : fgt x y = true → fgt y x = false;
  fgt_cotrans x y z : fgt x y = true → fgt x z = true ∨ fgt z y = true
}.

End Observations.

(** * A small instance for concrete runs

    Floats are exact rationals, a tensor is a list of integers, and the
    network is the number of optimizer steps taken so far: on input [v] it
    answers [min v steps]. *)

Module Toy.

Definition mismatches (p l : list Z) : nat :=
  length (filter (λ ab, ab.1 ≠ ab.2) (zip p l)).

#[export] Instance torch : Torch := {|
  float := Qc;
  f0 := 0%Qc;
  f0_4 := Q2Qc (4 # 10);
  fadd := Qcplus;
  fmul := Qcmult;
  fdiv := Qcdiv;
  of_nat n := Q2Qc (inject_Z (Z.of_nat n));
  fgt x y := bool_decide (y < x)%Qc;
  tensor := list Z;
  size0 := length;
  unsqueeze_float t := t;
  argmax t := t;
  sigmoid t := t;
  gt_half t := t;
  count_equal p l := length (filter (λ ab, ab.1 = ab.2) (zip p l));
  net := nat;
  train_mode m := m;
  eval_mode m := m;
  call m x := (λ v, Z.min v (Z.of_nat m)) <$> x;
  call_aux m x := ((λ v, Z.min v (Z.of_nat m)) <$> x, x);
  criterion p l := Q2Qc (inject_Z (Z.of_nat (mismatches p l)));
  backward_step _ m _ _ := S m;
  data_parallel m := m
|}.

Definition logger : util.logger :=
  util.Logger (list_to_set ["info"; "warn"; "error"; "infov"]).

(** The environment: the configuration, the splits and [misc] that the
    builders hand out, and whether a GPU is there. *)
Definition environment (cuda : bool) (config loaders misc : value) : env := {|
  log := logger;
  load_config _ := Ok config;
  generate_tag tag := VStr tag;
  setup _ := Ok ();
  save_path _ _ _ := Ok "checkpoints/toy.pth";
  dataset_builder_build _ := Ok loaders;
  model_builder_build _ := Ok (0%nat, misc);
  optimizer_builder_build _ m _ := Ok m;
  criterion_builder_build _ := Ok ();
  cuda_is_available := cuda;
  cuda_device_count := if cuda then 1 else 0
|}.

Definition config (num_epochs : Z) : value :=
  VDict (dict_display
    [("data", VDict ∅); ("model", VDict ∅);
     ("train", VDict (dict_display [("num_epochs", VInt num_epochs)]));
     ("eval", VDict ∅)]).

(** One training batch of two samples; two validation samples with the
    given labels; an evaluation split of four samples in two batches. *)
Definition inputs : tensor := [1; 3].

Definition train_split : loader := Loader [(inputs, [1; 2])] 2.

Definition val_split (val_labels : tensor) : loader := Loader [(inputs, val_labels)] 2.

Definition eval_split : loader := Loader [(inputs, [0; 1]); (inputs, [1; 3])] 4.

Definition loaders (val_labels : tensor) : value :=
  VDict (dict_display
    [("train", VLoader train_split);
     ("val", VLoader (val_split val_labels));
     ("eval", VLoader eval_split)]).

Definition misc (checkpoint : option Z) : value :=
  VDict (dict_display
    ([("model_name", VStr "toy"); ("num_classes", VInt 2)] ++
     match checkpoint with
     | Some epoch => [("checkpoint", VDict (dict_display [("epoch", VInt epoch)]))]
     | None => []
     end)).

Definition w0 : world := World 0%nat 0%nat [].

(** The engine that the constructor returns in environment [E] (the empty
    object if it raises). *)
Definition engine (E : env) : gmap string value :=
  match Engine.__init__ E "resnet18" "" w0 with
  | (Ok self, _) => self
  | _ => ∅
  end.

(** The same engine with the attribute that the validation pass reads. *)
Definition patched (E : env) : gmap string value :=
  setattr (engine E) "num_clsses" (VInt 2).

(** Accuracies by epoch, as fractions. *)
Definition fractions (l : list (Z * float)) : list (Z * Q) :=
  (λ ka : Z * Qc, (ka.1, this ka.2)) <$> l.

(** A fresh run of three epochs; the run of the specification's example,
    resumed from epoch 80 with 50 epochs configured; a run resumed from
    epoch 50 with 50 epochs configured; a one-epoch run whose validation
    predictions are all wrong; and a fresh run on a machine with a GPU. *)
Definition fresh : env :=
  environment false (config 3) (loaders [1; 3]) (misc None).

Definition resumed : env :=
  environment false (config 50) (loaders [1; 3]) (misc (Some 80)).

Definition resumed_at_bound : env :=
  environment false (config 50) (loaders [1; 3]) (misc (Some 50)).

Definition hopeless : env :=
  environment false (config 1) (loaders [9; 9]) (misc None).

Definition gpu : env :=
  environment true (config 3) (loaders [1; 3]) (misc None).

(** Image files and annotations of a two-image NACTI directory. *)
Definition metadata : json :=
  JObj (dict_display
    [("images", JArr [JObj (dict_display [("file_name", JStr "a.jpg")]);
                      JObj (dict_display [("file_name", JStr "b.jpg")])]);
     ("annotations", JArr [JObj (dict_display [("category_id", JNum 1)]);
                           JObj (dict_display [("category_id", JNum 16)])])]).

Definition disk : NACTI.world (image := nat) :=
  NACTI.World
    (dict_display
       [("/data/nacti_metadata_tmp.json", NACTI.JsonFile metadata);
        ("/data/a.jpg", NACTI.ImageFile 7%nat);
        ("/data/b.jpg", NACTI.ImageFile 8%nat)])
    [].

Definition nacti (label_type : string) : NACTI.t (image := nat) :=
  NACTI.Build "/data" metadata
    (default ∅ (NACTI.LABEL_TYPES !! label_type)) None.

(** The same directory without its image files. *)
Definition metadata_only : NACTI.world (image := nat) :=
  NACTI.World
    (dict_display [("/data/nacti_metadata_tmp.json", NACTI.JsonFile metadata)])
    [].

End Toy.

(** * More of the two files

    [TNC], the second adapter of src/datasets.py, and the vocabulary for
    what the methods of both files leave untouched. *)

(** The builtin [len(x)] on what [x.__len__()] returned: [None] cannot be
    interpreted as an integer. *)
Definition len_of (returned : option nat) : res nat :=
  match returned with
  | Some n => Ok n
  | None => Raise TypeError
  end.

Module TNC.
Section TNC.

(** What a transform takes and returns; Python's [None] is the [None] of
    the option. *)
Context {sample : Type}.

Record t := Build {
  data_dir : string;
  json_file : string;
  transform : option (option sample → res (option sample))
}.

(** [TNC.__init__], datasets.py lines 55-58. *)
Definition __init__ (data_dir json_file : string)
    (transform : option (option sample → res (option sample))) : t :=
  Build data_dir json_file transform.

(** [TNC.__len__], lines 60-61: a bare [return]. *)
Definition __len__ (self : t) : option nat := None.

(** [TNC.__getitem__], lines 63-68. *)
Definition __getitem__ (self : t) (idx : Z) : res (option sample) :=
  let sample := None in
  sample ← match transform self with
           | Some f => f sample
           | None => mret sample
           end;
  mret None.

End TNC.
End TNC.

Section Frames.
Context `{Torch}.

(** [m] leaves the component [f] of the world as it was, whether it returns
    or raises. *)
Definition preserves {S A} (f : world → S) (m : M world A) : Prop :=
  ∀ w, f (m w).2 = f w.

(** Every event that [m] appends to the trace satisfies [P], whether [m]
    returns or raises. *)
Definition emits {A} (P : event → Prop) (m : M world A) : Prop :=
  ∀ w, ∃ new, trace (m w).2 = trace w ++ new ∧ Forall P new.

(** What [_train] may append on [train_config]: log lines, and checkpoints
    at the path that [save_path] gives for the configured directory (or
    'checkpoints') and the engine's model name and tag; the epoch is no
    argument of [save_path].  No ROC export. *)
Definition training_event (E : env) (self : gmap string value) (train_config : value)
    (e : event) : Prop :=
  match e with
  | Log _ _ _ => True
  | Save path _ _ =>
      ∃ save_dir model_name tag,
        get train_config "save_dir" (VStr "checkpoints") = Ok save_dir ∧
        self !! "model_name" = Some model_name ∧
        self !! "tag" = Some tag ∧
        save_path E save_dir model_name tag = Ok path
  | SaveRoc _ _ => False
  end.

(** The log lines of a training pass with the given per-batch losses. *)
Definition batch_lines (losses : list float) : list event :=
  imap (λ i loss, Log "info" "Train batch {}/{} - loss: {:4f}"
                    [AInt (Z.of_nat i); AInt (Z.of_nat (length losses)); AFloat loss])
       losses.

End Frames.

(** Engines and worlds at the edges: the patched engine of the fresh run
    with a checkpoint that has no 'epoch', and with a validation split
    without batches; the engine of the fresh run with one class under the
    name the passes read; an evaluation configuration that asks for the ROC
    export; and a world in which both evaluation batches are drawn. *)
Module ToyEdges.
Import Toy.

Definition no_epoch : gmap string value :=
  setattr (patched fresh) "checkpoint" (VDict ∅).

Definition empty_val : gmap string value :=
  setattr (patched fresh) "dataloader"
    (VDict (dict_display [("val", VLoader (Loader [] 2))])).

Definition binary : gmap string value :=
  setattr (engine fresh) "num_clsses" (VInt 1).

Definition roc_config : gmap string value :=
  dict_display [("use_roc", VBool true)].

Definition exhausted : world := World 0%nat 2%nat [].

End ToyEdges.

(** * Proof tools *)

(** Unfolds the monad of a method body. *)
Ltac run := cbv [mbind M_bind res_bind bind lift gets update_model modify emit
                 mret M_ret res_ret ret raise].

(** Membership in a list that is written out. *)
Ltac in_list := repeat first [apply list_elem_of_here | apply list_elem_of_further].

(** [forall a, a ∈ l → P a] from [H : forall a, a ∈ l' → P a], for written-out
    lists with [l] inside [l']. *)
Ltac sub_attrs H :=
  let a := fresh "a" in
  let Ha := fresh "Ha" in
  intros a Ha; apply H;
  repeat (apply elem_of_cons in Ha as [->|Ha]);
  [in_list..|by apply elem_of_nil in Ha].

(** * Facts about the dataset adapter *)

Section NACTI_facts.
Context {image : Type}.
Implicit Types (log : util.logger) (w : NACTI.world (image:=image)).

Lemma LABEL_TYPES_lookup (label_type : string) :
  NACTI.LABEL_TYPES !! label_type =
    if decide (label_type = "multi") then Some NACTI.MULTI
    else if decide (label_type = "binary") then Some NACTI.BINARY
    else None.
Proof.
  unfold NACTI.LABEL_TYPES, dict_display; simpl.
  repeat case_decide; subst; simplify_map_eq; done.
Qed.

Lemma MULTI_empty : NACTI.MULTI = ∅.
Proof. reflexivity. Qed.

#[local] Opaque NACTI.LABEL_TYPES NACTI.BINARY path_join.

(** What the constructor does, by cases on the metadata file. *)
Lemma init_run log data_dir label_type transform w :
  let path := path_join data_dir "nacti_metadata_tmp.json" in
  let w1 := NACTI.World (NACTI.fs w) (NACTI.trace w ++ [NACTI.Open path]) in
  NACTI.__init__ log data_dir label_type transform w =
    match NACTI.fs w !! path with
    | None => (Raise (OSError path), w1)
    | Some (NACTI.JsonFile md) =>
        match NACTI.LABEL_TYPES !! label_type with
        | Some m => (Ok (NACTI.Build data_dir md m transform), w1)
        | None =>
            match util.getattr log "error" with
            | Ok _ =>
                (Raise (KeyError (KStr label_type)),
                 NACTI.World (NACTI.fs w)
                   (NACTI.trace w1 ++
                    [NACTI.Log "error" "Specify right type for NACTI dataset - binary or multi"]))
            | Raise e => (Raise e, w1)
            end
        end
    | Some _ => (Raise ValueError, w1)
    end.
Proof.
  intros path w1. unfold NACTI.__init__. fold path.
  cbv [mbind M_bind bind NACTI.open NACTI.emit modify gets mret M_ret ret raise lift].
  cbn [NACTI.fs NACTI.trace]. fold w1.
  destruct (NACTI.fs w !! path) as [[md| |]|]; cbn; try reflexivity.
  destruct (NACTI.LABEL_TYPES !! label_type) as [m|] eqn:Hm.
  - rewrite decide_True; [reflexivity|]. apply elem_of_dom; eauto.
  - rewrite decide_False; [|by apply not_elem_of_dom].
    unfold NACTI.log_call.
    cbv [mbind M_bind bind NACTI.emit modify lift].
    destruct (util.getattr log "error") as [[]|e]; reflexivity.
Qed.
End NACTI_facts.

Section NACTI_claims.
Context {image : Type}.
Implicit Types (log : util.logger) (w : NACTI.world (image:=image)).

(** C6.  A label type other than "binary" and "multi" makes the constructor
    fail, whatever the data directory holds: no object is returned, so no
    item is ever accessed, and no image file has been opened.  When the
    metadata file loads and the logger has an [error] method, the failure is
    the [KeyError] of the label-type table, after the error line is
    logged. *)
Theorem NACTI_init_rejects_unknown_label_type
    log data_dir label_type transform w :
  label_type ∉ ["binary"; "multi"] →
  ∃ e w' new,
    NACTI.__init__ log data_dir label_type transform w = (Raise e, w') ∧
    NACTI.trace w' = NACTI.trace w ++ new ∧
    NACTI.image_opens new = [] ∧
    (∀ md,
       NACTI.fs w !! path_join data_dir "nacti_metadata_tmp.json"
         = Some (NACTI.JsonFile md) →
       "error" ∈ util.methods log →
       e = KeyError (KStr label_type) ∧
       new = [NACTI.Open (path_join data_dir "nacti_metadata_tmp.json");
              NACTI.Log "error"
                "Specify right type for NACTI dataset - binary or multi"]).
Proof.
  intros Hne.
  assert (NACTI.LABEL_TYPES !! label_type = None) as Hnone.
  { rewrite LABEL_TYPES_lookup.
    repeat case_decide; subst; try done; exfalso; apply Hne; in_list. }
  rewrite init_run, Hnone.
  destruct (NACTI.fs w !! _) as [[md| |]|] eqn:Hfs.
  - unfold util.getattr. case_decide as Herr.
    + do 3 eexists. split; [reflexivity|]. cbn [NACTI.trace].
      split; [by rewrite <- app_assoc|]. split; [reflexivity|].
      intros md' Hmd _. done.
    + do 3 eexists. split; [reflexivity|]. cbn [NACTI.trace].
      split; [reflexivity|]. split; [reflexivity|]. intros md' _ Hin. done.
  - do 3 eexists. split; [reflexivity|]. cbn [NACTI.trace].
    split; [reflexivity|]. split; [reflexivity|]. intros md' Hmd. done.
  - do 3 eexists. split; [reflexivity|]. cbn [NACTI.trace].
    split; [reflexivity|]. split; [reflexivity|]. intros md' Hmd. done.
  - do 3 eexists. split; [reflexivity|]. cbn [NACTI.trace].
    split; [reflexivity|]. split; [reflexivity|]. intros md' Hmd. done.
Qed.
End NACTI_claims.

Section NACTI_items.
Context {image : Type}.
Implicit Types (log : util.logger) (w : NACTI.world (image:=image))
  (self : NACTI.t (image:=image)).

(** An item that is returned carries the label of lines 45-46. *)
Lemma getitem_returns_label self idx w img lbl w' :
  NACTI.__getitem__ self idx w = (Ok (img, lbl), w') →
  NACTI.label_of self idx = Ok lbl.
Proof.
  unfold NACTI.__getitem__, NACTI.label_of, NACTI.Image_open.
  cbv [mbind M_bind res_bind bind lift NACTI.emit modify gets mret M_ret ret raise].
  intros Hrun.
  repeat (case_match; simplify_eq/=; try done).
Qed.






(** Nothing is found in an empty label map. *)
Lemma label_lookup_empty (original_label : json) :
  ∃ e, NACTI.label_lookup ∅ original_label = Raise e.
Proof.
  unfold NACTI.label_lookup. destruct original_label; rewrite ?lookup_empty; eauto.
Qed.

(** C10, as amended.  With label type "multi" and a metadata file that
    loads, the constructor returns (the selector is recognised) an adapter
    that holds the metadata of the file and the empty label map.  No call
    of [__getitem__] on it returns, for any index and any state of the
    directory.  For an index [i] that has an image entry with a file name
    and an annotation with category id [c], the call opens the image file
    first: when the file is there and is an image, the lookup in the label
    map then raises [KeyError c]; when it is not, the call raises the
    [OSError] of [Image.open] and the label map is never consulted. *)
Theorem NACTI_multi_items_fail
    log data_dir transform w0 md images entry file_name annotations annotation c i w :
  NACTI.fs w0 !! path_join data_dir "nacti_metadata_tmp.json"
    = Some (NACTI.JsonFile md) →
  NACTI.subscript md "images" = Ok images →
  NACTI.subscript_int images i = Ok entry →
  NACTI.subscript entry "file_name" = Ok (JStr file_name) →
  NACTI.subscript md "annotations" = Ok annotations →
  NACTI.subscript_int annotations i = Ok annotation →
  NACTI.subscript annotation "category_id" = Ok (JNum c) →
  let image_path := path_join data_dir file_name in
  ∃ self w1,
    NACTI.__init__ log data_dir "multi" transform w0 = (Ok self, w1) ∧
    NACTI.metadata self = md ∧
    NACTI.label_map self = ∅ ∧
    (∀ j w2, ∃ e, (NACTI.__getitem__ self j w2).1 = Raise e) ∧
    NACTI.__getitem__ self i w =
      (Raise (match NACTI.fs w !! image_path with
              | Some (NACTI.ImageFile _) => KeyError (KInt c)
              | _ => OSError image_path
              end),
       NACTI.World (NACTI.fs w) (NACTI.trace w ++ [NACTI.ImageOpen image_path])).
Proof.
  intros Hmd Himages Hentry Hname Hanns Hann Hcat image_path.
  rewrite init_run, Hmd, LABEL_TYPES_lookup. cbn [decide].
  rewrite decide_True by done. rewrite MULTI_empty.
  eexists _, _. split; [reflexivity|]. split; [reflexivity|].
  split; [reflexivity|]. split.
  - intros j w2.
    destruct (NACTI.__getitem__ _ j w2) as [[[img lbl]|e] w'] eqn:Hrun;
      [|by exists e].
    apply getitem_returns_label in Hrun. exfalso.
    unfold NACTI.label_of in Hrun. cbv [mbind res_bind] in Hrun.
    cbn [NACTI.label_map] in Hrun.
    repeat (case_match; simplify_eq).
    match goal with
    | Hl : NACTI.label_lookup ∅ ?x = Ok _ |- _ =>
        destruct (label_lookup_empty x) as [e He]; congruence
    end.
  - unfold NACTI.__getitem__, NACTI.Image_open.
    cbv [mbind M_bind res_bind bind lift NACTI.emit modify gets mret M_ret ret raise].
    cbn [NACTI.metadata NACTI.data_dir NACTI.label_map NACTI.transform].
    rewrite Himages, Hentry, Hname. cbn [NACTI.as_str NACTI.fs NACTI.trace].
    fold image_path.
    destruct (NACTI.fs w !! image_path) as [[j|raw|]|]; try reflexivity.
    rewrite Hanns, Hann, Hcat. unfold NACTI.label_lookup.
    by rewrite lookup_empty.
Qed.
End NACTI_items.

(** * Facts about the engine *)

Section Engine_passes.
Context `{Torch}.
Variable E : env.
Implicit Types (self : gmap string value) (w : world) (bs : list (tensor * tensor)).

Lemma getattr_Some self a :
  is_Some (self !! a) → ∃ v, getattr self a = Ok v ∧ self !! a = Some v.
Proof. intros [v Hv]. exists v. unfold getattr. by rewrite Hv. Qed.

Lemma log_call_run level fmt args w :
  level ∈ util.methods (log E) →
  log_call E level fmt args w
    = (Ok (), World (model w) (drawn w) (trace w ++ [Log level fmt args])).
Proof.
  intros Hin. unfold log_call, util.getattr.
  cbv [mbind M_bind bind lift emit modify]. by rewrite decide_True.
Qed.

Lemma saved_epochs_app tr1 tr2 :
  saved_epochs (tr1 ++ tr2) = saved_epochs tr1 ++ saved_epochs tr2.
Proof. apply omap_app. Qed.

Lemma trained_epochs_app tr1 tr2 :
  trained_epochs (tr1 ++ tr2) = trained_epochs tr1 ++ trained_epochs tr2.
Proof. apply omap_app. Qed.

Lemma validated_app tr1 tr2 :
  validated (tr1 ++ tr2) = validated tr1 ++ validated tr2.
Proof. apply omap_app. Qed.

Lemma silent_nil : silent [].
Proof. done. Qed.

Lemma silent_app tr1 tr2 : silent tr1 → silent tr2 → silent (tr1 ++ tr2).
Proof.
  intros (Ha & Hb & Hc) (Ha' & Hb' & Hc'). unfold silent.
  rewrite saved_epochs_app, trained_epochs_app, validated_app.
  rewrite Ha, Hb, Hc, Ha', Hb', Hc'. done.
Qed.

(** The loop of the training pass, from the behaviour of its body. *)
Lemma train_loop inc nb (body : float → nat * (tensor * tensor) → M world float) :
  (∀ total i x y w,
     body total (i, (x, y)) w =
       (Ok (fadd total (fmul (batch_loss inc (model w) x (unsqueeze_float y))
                             (of_nat (size0 x)))),
        World (backward_step inc (model w) x (unsqueeze_float y)) (drawn w)
          (trace w ++ [Log "info" "Train batch {}/{} - loss: {:4f}"
             [AInt (Z.of_nat i); AInt nb;
              AFloat (batch_loss inc (model w) x (unsqueeze_float y))]]))) →
  ∀ (ibs : list (nat * (tensor * tensor))) total w,
  ∃ logs,
    silent logs ∧
    for_fold ibs body total w =
      (Ok (foldl (λ total ls, fadd total (fmul ls.1 (of_nat ls.2))) total
             (zip (train_losses inc (model w) ibs.*2) (sizes ibs.*2))),
       World (trained inc (model w) ibs.*2) (drawn w) (trace w ++ logs)).
Proof.
  intros Hbody ibs. induction ibs as [|[i [x y]] ibs IH]; intros total w.
  - exists []. split; [apply silent_nil|]. cbn. rewrite app_nil_r. by destruct w.
  - cbn [for_fold]. unfold bind at 1. rewrite Hbody.
    edestruct IH as (logs & Hsilent & ->). cbn [model drawn trace].
    eexists (_ :: logs). split; last first.
    + cbn. by rewrite <- app_assoc.
    + apply (silent_app [_]); [done|exact Hsilent].
Qed.

(** The loop of the validation pass, from the behaviour of its body. *)
Lemma val_loop multi (body : float * count → tensor * tensor → M world (float * count)) :
  (∀ total c x y w,
     body (total, c) (x, y) w =
       (Ok (fadd total (fmul (criterion (call (model w) x) (unsqueeze_float y))
                             (of_nat (size0 x))),
            count_add c (count_equal (predict multi (call (model w) x))
                           (unsqueeze_float y))), w)) →
  ∀ bs total c w,
    for_fold bs body (total, c) w =
      (Ok (foldl (λ total ls, fadd total (fmul ls.1 (of_nat ls.2))) total
             (zip (val_losses (model w) bs) (sizes bs)),
           foldl (λ c b, count_add c (count_equal (predict multi (call (model w) b.1))
                                        (unsqueeze_float b.2))) c bs), w).
Proof.
  intros Hbody bs. induction bs as [|[x y] bs IH]; intros total c w; [done|].
  cbn [for_fold]. unfold bind at 1. rewrite Hbody, IH. done.
Qed.

Lemma count_add_foldl (f : tensor * tensor → nat) bs n :
  foldl (λ c b, count_add c (f b)) (TensorCount n) bs
    = TensorCount (foldl (λ n b, (n + f b)%nat) n bs).
Proof. revert n. induction bs as [|b bs IH]; intros n; [done|]. cbn. apply IH. Qed.

Lemma imap_pair_snd {A} (l : list A) : (imap (λ i b, (i, b)) l).*2 = l.
Proof.
  rewrite <- (list_fmap_id l) at 2. unfold fmap at 1.
  rewrite fmap_imap. symmetry. rewrite <- imap_const. done.
Qed.
End Engine_passes.

Section Engine_runs.
Context `{Torch}.
Variable E : env.
Implicit Types (self : gmap string value) (w : world) (bs : list (tensor * tensor)).

(** The training pass on an engine that has its training split, the
    attributes the pass reads and a logger with [info]. *)
Lemma train_pass_run self tl vi w :
  Engine.split self "train" = Ok tl →
  (∀ a, a ∈ ["model"; "device"; "optimizer"; "criterion"] → is_Some (self !! a)) →
  self !! "is_inception" = Some vi →
  "info" ∈ util.methods (log E) →
  ∃ logs,
    silent logs ∧
    Engine._train_one_epoch E self w =
      (py_div (weighted_sum
                 (train_losses (truthy vi) (train_mode (model w)) (batches tl))
                 (sizes (batches tl)))
              (dataset_len tl),
       World (trained (truthy vi) (train_mode (model w)) (batches tl)) (drawn w)
         (trace w ++ logs)).
Proof.
  intros Hsplit Hattrs Hinc Hinfo.
  destruct (getattr_Some self "model") as (vm & Hm & _); [apply Hattrs; in_list|].
  destruct (getattr_Some self "device") as (vd & Hd & _); [apply Hattrs; in_list|].
  destruct (getattr_Some self "optimizer") as (vo & Ho & _); [apply Hattrs; in_list|].
  destruct (getattr_Some self "criterion") as (vc & Hc & _); [apply Hattrs; in_list|].
  assert (getattr self "is_inception" = Ok vi) as Hi by (unfold getattr; by rewrite Hinc).
  unfold Engine._train_one_epoch. run. rewrite Hsplit, Hm, Hd, Ho, Hi, Hc.
  match goal with
  | |- context [for_fold ?l ?body ?s ?w'] =>
      destruct (train_loop (truthy vi) (Z.of_nat (length (batches tl))) body)
        with (ibs := l) (total := s) (w := w') as (logs & Hsilent & ->)
  end.
  { intros total i x y w'. cbn [model drawn trace].
    rewrite log_call_run by done. cbn [model drawn trace].
    unfold batch_loss. destruct (truthy vi); [destruct (call_aux _ _)|]; done. }
  exists logs. split; [done|]. cbn [model drawn trace].
  rewrite imap_pair_snd. unfold weighted_sum. done.
Qed.

(** The validation pass on an engine that has its validation split, the
    attributes the pass reads, and the class count under the name the pass
    reads. *)
Lemma val_pass_run self vl multi w :
  Engine.split self "val" = Ok vl →
  (∀ a, a ∈ ["model"; "device"; "criterion"] → is_Some (self !! a)) →
  Engine.more_than_one_class self = Ok multi →
  batches vl ≠ [] →
  dataset_len vl ≠ 0%nat →
  Engine._val self w =
    (Ok (fdiv (weighted_sum (val_losses (eval_mode (model w)) (batches vl))
                 (sizes (batches vl)))
              (of_nat (dataset_len vl)),
         fdiv (of_nat (corrects multi (eval_mode (model w)) (batches vl)))
              (of_nat (dataset_len vl))),
     World (eval_mode (model w)) (drawn w) (trace w)).
Proof.
  intros Hsplit Hattrs Hmulti Hbs Hlen.
  destruct (getattr_Some self "model") as (vm & Hm & _); [apply Hattrs; in_list|].
  destruct (getattr_Some self "device") as (vd & Hd & _); [apply Hattrs; in_list|].
  destruct (getattr_Some self "criterion") as (vc & Hc & _); [apply Hattrs; in_list|].
  unfold Engine._val. run. rewrite Hsplit, Hm, Hd, Hc, Hmulti.
  match goal with
  | |- context [for_fold ?l ?body ?s ?w'] =>
      rewrite (val_loop multi body) by (by intros total c x y w1)
  end.
  cbn [model drawn trace]. unfold py_div. rewrite decide_False by done.
  destruct (batches vl) as [|b bs]; [done|].
  cbn [foldl count_add]. rewrite count_add_foldl. cbn [double].
  unfold weighted_sum, corrects. done.
Qed.

(** The validation pass stops at the first batch when the class count
    cannot be read. *)
Lemma val_pass_raises self vl e w :
  Engine.split self "val" = Ok vl →
  (∀ a, a ∈ ["model"; "device"; "criterion"] → is_Some (self !! a)) →
  Engine.more_than_one_class self = Raise e →
  batches vl ≠ [] →
  Engine._val self w = (Raise e, World (eval_mode (model w)) (drawn w) (trace w)).
Proof.
  intros Hsplit Hattrs Hmulti Hbs.
  destruct (getattr_Some self "model") as (vm & Hm & _); [apply Hattrs; in_list|].
  destruct (getattr_Some self "device") as (vd & Hd & _); [apply Hattrs; in_list|].
  destruct (getattr_Some self "criterion") as (vc & Hc & _); [apply Hattrs; in_list|].
  unfold Engine._val. run. rewrite Hsplit, Hm, Hd, Hc, Hmulti.
  destruct (batches vl) as [|[x y] bs]; [done|].
  cbn [for_fold]. unfold bind. done.
Qed.

Lemma save_model_run self save_dir epoch w :
  (∀ a, a ∈ ["model"; "optimizer"; "model_name"; "tag"] → is_Some (self !! a)) →
  (∀ d n t, is_ok (save_path E d n t) = true) →
  ∃ path,
    Engine._save_model E self save_dir epoch w =
      (Ok (), World (model w) (drawn w) (trace w ++ [Save path epoch (model w)])).
Proof.
  intros Hattrs Hpath.
  destruct (getattr_Some self "model") as (vm & Hm & _); [apply Hattrs; in_list|].
  destruct (getattr_Some self "optimizer") as (vo & Ho & _); [apply Hattrs; in_list|].
  destruct (getattr_Some self "model_name") as (vn & Hn & _); [apply Hattrs; in_list|].
  destruct (getattr_Some self "tag") as (vt & Ht & _); [apply Hattrs; in_list|].
  unfold Engine._save_model. run. rewrite Hm, Ho, Hn, Ht.
  specialize (Hpath save_dir vn vt).
  destruct (save_path E save_dir vn vt) as [path|]; [|done].
  by exists path.
Qed.
End Engine_runs.

Section Improvements.
Context `{Torch} `{!FloatOrder}.

Lemma fgt_trans x y z : fgt x y = true → fgt y z = true → fgt x z = true.
Proof.
  intros Hxy Hyz. destruct (fgt_cotrans x y z Hxy) as [|Hzy]; [done|].
  apply fgt_asym in Hyz. congruence.
Qed.

Lemma improvements_keys best l k : k ∈ improvements best l → k ∈ l.*1.
Proof.
  revert best. induction l as [|[k0 a0] l IH]; intros best; cbn; [done|].
  destruct (fgt a0 best).
  - intros [->|Hk]%elem_of_cons; [by left|]. right. by eapply IH.
  - intros Hk. right. by eapply IH.
Qed.

(** On a run with increasing epochs, an epoch improves on the best so far
    exactly when its accuracy exceeds the initial best and every earlier
    accuracy. *)
Lemma improvements_spec l best k a :
  StronglySorted Z.lt l.*1 →
  (k, a) ∈ l →
  k ∈ improvements best l ↔
    fgt a best = true ∧ ∀ j b, (j, b) ∈ l → j < k → fgt a b = true.
Proof.
  revert best. induction l as [|[k0 a0] l IH]; intros best Hsorted Hin.
  { by apply elem_of_nil in Hin. }
  cbn in Hsorted. apply StronglySorted_inv in Hsorted as [Hsorted Hlt].
  rewrite Forall_forall in Hlt.
  assert (∀ j b, (j, b) ∈ l → k0 < j) as Hlater.
  { intros j b Hjb. apply Hlt. apply list_elem_of_fmap. by exists (j, b). }
  cbn [improvements]. apply elem_of_cons in Hin as [[= -> ->]|Hin].
  - destruct (fgt a0 best) eqn:Hgt.
    + split; [intros _|intros _; by left]. split; [done|].
      intros j b [[= -> ->]|Hjb]%elem_of_cons Hj; [lia|].
      apply Hlater in Hjb. lia.
    + split; [|by intros [? _]].
      intros Hk%improvements_keys. apply Hlt in Hk. lia.
  - pose proof (Hlater _ _ Hin) as Hk.
    destruct (fgt a0 best) eqn:Hgt.
    + rewrite elem_of_cons, (IH a0 Hsorted Hin). split.
      * intros [->|[Ha Hall]]; [lia|]. split; [by eapply fgt_trans|].
        intros j b [[= -> ->]|Hjb]%elem_of_cons Hj; [done|by eapply Hall].
      * intros [Ha Hall]. right. split; [apply (Hall k0); [by left|done]|].
        intros j b Hjb Hj. apply (Hall j); [by right|done].
    + rewrite (IH best Hsorted Hin). split.
      * intros [Ha Hall]. split; [done|].
        intros j b [[= -> ->]|Hjb]%elem_of_cons Hj; [|by eapply Hall].
        destruct (fgt_cotrans _ _ a0 Ha) as [|Hbad]; [done|congruence].
      * intros [Ha Hall]. split; [done|].
        intros j b Hjb Hj. apply (Hall j); [by right|done].
Qed.

Lemma improvements_sublist best l : improvements best l `sublist_of` l.*1.
Proof.
  revert best. induction l as [|[k0 a0] l IH]; intros best; cbn; [done|].
  destruct (fgt a0 best); [by apply sublist_skip|by apply sublist_cons].
Qed.
End Improvements.

Section Engine_epochs.
Context `{Torch}.
Variable E : env.
Implicit Types (self : gmap string value) (w : world).

Lemma ready_attr self tl vl a :
  ready E self tl vl →
  a ∈ ["model"; "device"; "optimizer"; "criterion"; "is_inception";
       "model_name"; "tag"] →
  is_Some (self !! a).
Proof. intros Hready. apply (ready_attrs _ _ _ _ Hready). Qed.

(** One epoch on a ready engine: both passes return, the two epoch lines
    are logged, and a checkpoint is written exactly when the accuracy
    exceeds the best so far. *)
Lemma epoch_run self tl vl save_dir accs best k w :
  ready E self tl vl →
  ∃ a w' logs,
    Engine.epoch_body E self save_dir (accs, best) k w
      = (Ok (accs ++ [a], if fgt a best then a else best), w') ∧
    drawn w' = drawn w ∧
    trace w' = trace w ++ logs ∧
    trained_epochs logs = [k] ∧
    validated logs = [(k, a)] ∧
    saved_epochs logs = if fgt a best then [k] else [].
Proof.
  intros Hready.
  destruct (ready_attr self tl vl "is_inception" Hready) as [vi Hvi]; [in_list|].
  destruct (Engine.more_than_one_class self) as [multi|] eqn:Hmulti;
    [|by pose proof (ready_classes _ _ _ _ Hready) as Hc; rewrite Hmulti in Hc].
  destruct (train_pass_run E self tl vi w) as (logs & Hsilent & Htrain).
  { apply Hready. }
  { sub_attrs (ready_attrs _ _ _ _ Hready). }
  { done. }
  { apply Hready. }
  destruct Hsilent as (Hs1 & Hs2 & Hs3).
  unfold Engine.epoch_body. run. rewrite Htrain.
  unfold py_div. rewrite decide_False by apply Hready.
  rewrite log_call_run by apply Hready. cbn [model drawn trace].
  erewrite val_pass_run; [|apply Hready| |exact Hmulti|apply Hready|apply Hready];
    last sub_attrs (ready_attrs _ _ _ _ Hready).
  cbn [model drawn trace].
  match goal with |- context [if fgt ?a best then _ else _] => set (acc := a) end.
  exists acc. destruct (fgt acc best) eqn:Hgt.
  - match goal with
    | |- context [Engine._save_model E self save_dir k ?w1] =>
        destruct (save_model_run E self save_dir k w1) as (path & ->)
    end.
    { sub_attrs (ready_attrs _ _ _ _ Hready). }
    { apply Hready. }
    rewrite log_call_run by apply Hready. cbn [model drawn trace].
    eexists _, _. split; [reflexivity|]. cbn [model drawn trace].
    split; [done|]. split; [by rewrite <- !app_assoc|].
    rewrite !trained_epochs_app, !validated_app, !saved_epochs_app, Hs1, Hs2, Hs3.
    done.
  - rewrite log_call_run by apply Hready. cbn [model drawn trace].
    eexists _, _. split; [reflexivity|]. cbn [model drawn trace].
    split; [done|]. split; [by rewrite <- !app_assoc|].
    rewrite !trained_epochs_app, !validated_app, !saved_epochs_app, Hs1, Hs2, Hs3.
    done.
Qed.

(** The epoch loop on a ready engine. *)
Lemma epochs_run self tl vl save_dir ks :
  ready E self tl vl →
  ∀ accs best w,
  ∃ accs' best' w' new,
    for_fold ks (Engine.epoch_body E self save_dir) (accs, best) w
      = (Ok (accs ++ accs', best'), w') ∧
    drawn w' = drawn w ∧
    trace w' = trace w ++ new ∧
    trained_epochs new = ks ∧
    validated new = zip ks accs' ∧
    length accs' = length ks ∧
    saved_epochs new = improvements best (validated new).
Proof.
  intros Hready. induction ks as [|k ks IH]; intros accs best w.
  - exists [], best, w, []. cbn. rewrite !app_nil_r. done.
  - cbn [for_fold]. unfold bind at 1.
    destruct (epoch_run self tl vl save_dir accs best k w Hready)
      as (a & w1 & logs & -> & Hd1 & Ht1 & Htr1 & Hv1 & Hs1).
    destruct (IH (accs ++ [a]) (if fgt a best then a else best) w1)
      as (accs' & best' & w' & new & -> & Hd & Ht & Htr & Hv & Hlen & Hs).
    exists (a :: accs'), best', w', (logs ++ new).
    split; [by rewrite <- app_assoc|]. split; [congruence|].
    split; [by rewrite Ht, Ht1, <- app_assoc|].
    rewrite trained_epochs_app, validated_app, saved_epochs_app.
    rewrite Htr1, Htr, Hv1, Hs1, Hs, Hv. cbn.
    split; [done|]. split; [done|]. split; [by rewrite Hlen|].
    destruct (fgt a best); done.
Qed.

(** [_train] on a ready engine, for the epoch bounds it has computed. *)
Lemma train_run self tl vl d start num w :
  ready E self tl vl →
  Engine.epoch_bounds self (VDict d) = Ok (start, num) →
  ∃ accs w' new,
    Engine._train E self (VDict d) w = (Ok (), w') ∧
    drawn w' = drawn w ∧
    trace w' = trace w ++ new ∧
    trained_epochs new = range start num ∧
    validated new = zip (range start num) accs ∧
    length accs = length (range start num) ∧
    saved_epochs new = improvements f0 (validated new).
Proof.
  intros Hready Hbounds. unfold Engine._train. run. cbn [get]. rewrite Hbounds.
  rewrite log_call_run by apply Hready.
  match goal with
  | |- context [for_fold _ (Engine.epoch_body E self ?save_dir) (?accs, _) ?w1] =>
      destruct (epochs_run self tl vl save_dir (range start num) Hready accs f0 w1)
        as (accs' & best' & w' & new & -> & Hd & Ht & Htr & Hv & Hlen & Hs)
  end.
  cbn [model drawn trace] in *.
  exists accs', w', ([Log "info" "Training for {} epochs starts from epoch {}"
                        [AInt num; AInt start]] ++ new).
  split; [done|]. split; [done|]. split; [by rewrite Ht, <- app_assoc|].
  rewrite (trained_epochs_app [_]), (validated_app [_]), (saved_epochs_app [_]).
  rewrite Htr, Hs, Hv. done.
Qed.
End Engine_epochs.

Section Monad_inversion.
Context {W : Type}.

Lemma bind_Ok_inv {A B} (m : M W A) (k : A → M W B) w b w' :
  (x ← m; k x) w = (Ok b, w') →
  ∃ a w1, m w = (Ok a, w1) ∧ k a w1 = (Ok b, w').
Proof.
  cbv [mbind M_bind bind]. destruct (m w) as [[a|e] w1]; [eauto|done].
Qed.

Lemma lift_Ok_inv {A} (r : res A) (w : W) a w' :
  lift r w = (Ok a, w') → r = Ok a ∧ w' = w.
Proof. cbv [lift]. by intros [= -> ->]. Qed.

Lemma ret_Ok_inv {A} (x : A) (w : W) a w' :
  (mret x : M W A) w = (Ok a, w') → a = x ∧ w' = w.
Proof. cbv [mret M_ret ret]. by intros [= -> ->]. Qed.
End Monad_inversion.

(** Takes a returning computation apart, bind by bind. *)
Ltac invert_run H :=
  repeat first
    [ apply bind_Ok_inv in H as (? & ? & ? & H); cbv zeta in H
    | apply ret_Ok_inv in H as [? ?]
    | match type of H with (let '(_, _) := ?p in _) _ = _ => destruct p end ];
  repeat match goal with
         | H' : lift _ _ = (Ok _, _) |- _ => apply lift_Ok_inv in H' as [? ?]
         end.

Section Engine_init.
Context `{Torch}.
Variable E : env.
Implicit Types (self : gmap string value) (w : world).

Lemma getattr_setattr_eq self a v : getattr (setattr self a v) a = Ok v.
Proof. unfold getattr, setattr. by rewrite lookup_insert_eq. Qed.

Lemma getattr_setattr_ne self a b v :
  a ≠ b → getattr (setattr self a v) b = getattr self b.
Proof. intros Hne. unfold getattr, setattr. by rewrite lookup_insert_ne. Qed.

(** The attributes of the object that [BaseEngine.__init__] returns. *)
Lemma base_init_self config tag w self w' :
  BaseEngine.__init__ E config tag w = (Ok self, w') →
  ∃ cfg,
    load_config E config = Ok cfg ∧
    self = setattr (setattr (setattr ∅ "config" cfg) "tag" (generate_tag E tag))
             "device" (VStr (if cuda_is_available E then "cuda" else "cpu")).
Proof.
  unfold BaseEngine.__init__. intros Hrun. invert_run Hrun. subst. eauto.
Qed.

(** The attributes of the object that [Engine.__init__] returns: the
    constructor assigns these eleven names and no other. *)
Lemma init_self config tag w self w' :
  Engine.__init__ E config tag w = (Ok self, w') →
  ∃ cfg dl mn nc ck inc,
    self =
      setattr (setattr (setattr (setattr (setattr (setattr (setattr (setattr
        (setattr (setattr (setattr ∅
          "config" cfg) "tag" (generate_tag E tag))
          "device" (VStr (if cuda_is_available E then "cuda" else "cpu")))
          "dataloader" dl) "model" (VObject "model"))
          "model_name" mn) "num_classes" nc) "checkpoint" ck) "is_inception" inc)
          "optimizer" (VObject "optimizer")) "criterion" (VObject "criterion").
Proof.
  unfold Engine.__init__. intros Hrun.
  apply bind_Ok_inv in Hrun as (self0 & w0 & Hbase & Hrun).
  apply base_init_self in Hbase as (cfg & _ & ->).
  invert_run Hrun. subst. eauto 10.
Qed.
End Engine_init.

Section Engine_claims.
Context `{Torch}.
Variable E : env.
Implicit Types (self : gmap string value) (w : world).

(** The constructed engine has every attribute the passes read except the
    class count under the name they read it. *)
Lemma init_attrs config tag w self w' :
  Engine.__init__ E config tag w = (Ok self, w') →
  self !! "num_clsses" = None ∧
  is_Some (self !! "num_classes") ∧
  ∀ a, a ∈ ["model"; "device"; "optimizer"; "criterion"; "is_inception";
            "model_name"; "tag"; "config"; "checkpoint"; "dataloader"] →
       is_Some (self !! a).
Proof.
  intros (cfg & dl & mn & nc & ck & inc & ->)%init_self. unfold setattr.
  split; [by simplify_map_eq|]. split; [by simplify_map_eq|].
  intros a Ha. repeat (apply elem_of_cons in Ha as [->|Ha]); try by simplify_map_eq.
  by apply elem_of_nil in Ha.
Qed.

Lemma init_more_than_one_class config tag w self w' :
  Engine.__init__ E config tag w = (Ok self, w') →
  Engine.more_than_one_class self = Raise (AttributeError "num_clsses").
Proof.
  intros (Hnone & _)%init_attrs. unfold Engine.more_than_one_class, getattr.
  by rewrite Hnone.
Qed.

(** The evaluation pass when the class count cannot be read. *)
Lemma eval_pass_raises self el eval_config b e w :
  Engine.split self "eval" = Ok el →
  (∀ a, a ∈ ["model"; "device"; "criterion"] → is_Some (self !! a)) →
  is_ok (get eval_config "use_roc" (VBool false)) = true →
  batches el !! drawn w = Some b →
  Engine.more_than_one_class self = Raise e →
  Engine._eval self eval_config w
    = (Raise e, World (eval_mode (model w)) (S (drawn w)) (trace w)).
Proof.
  intros Hsplit Hattrs Hget Hb Hmulti.
  destruct (getattr_Some self "model") as (vm & Hm & _); [apply Hattrs; in_list|].
  destruct (getattr_Some self "device") as (vd & Hd & _); [apply Hattrs; in_list|].
  destruct (getattr_Some self "criterion") as (vc & Hc & _); [apply Hattrs; in_list|].
  destruct (get eval_config "use_roc" (VBool false)) as [use_roc|] eqn:Hroc; [|done].
  unfold Engine._eval, next. run. rewrite Hroc, Hm, Hsplit. cbn [model drawn trace].
  rewrite Hb. destruct b as [x y]. rewrite Hd, Hc, Hmulti. done.
Qed.

(** The evaluation pass on an engine that has the class count under the
    name the pass reads. *)
Lemma eval_pass_run self el d x y multi w :
  Engine.split self "eval" = Ok el →
  (∀ a, a ∈ ["model"; "device"; "criterion"] → is_Some (self !! a)) →
  Engine.more_than_one_class self = Ok multi →
  batches el !! drawn w = Some (x, y) →
  dataset_len el ≠ 0%nat →
  ∃ roc,
    Engine._eval self (VDict d) w =
      (Ok (fdiv (fadd f0 (fmul (criterion (call (eval_mode (model w)) x)
                                  (unsqueeze_float y))
                               (of_nat (size0 x))))
                (of_nat (dataset_len el)),
           fdiv (of_nat (count_equal (predict multi (call (eval_mode (model w)) x))
                                     (unsqueeze_float y)))
                (of_nat (dataset_len el))),
       World (eval_mode (model w)) (S (drawn w)) (trace w ++ roc)) ∧
    saved_epochs roc = [].
Proof.
  intros Hsplit Hattrs Hmulti Hb Hlen.
  destruct (getattr_Some self "model") as (vm & Hm & _); [apply Hattrs; in_list|].
  destruct (getattr_Some self "device") as (vd & Hd & _); [apply Hattrs; in_list|].
  destruct (getattr_Some self "criterion") as (vc & Hc & _); [apply Hattrs; in_list|].
  unfold Engine._eval, next. run. cbn [get]. rewrite Hm, Hsplit. cbn [model drawn trace].
  rewrite Hb, Hd, Hc, Hmulti. unfold py_div. rewrite decide_False by done.
  cbn [count_add double Nat.add]. unfold predict.
  destruct multi; cbn [model drawn trace].
  - exists []. by rewrite app_nil_r.
  - destruct (truthy _); cbn [model drawn trace].
    + eexists [_]. split; [reflexivity|done].
    + exists []. by rewrite app_nil_r.
Qed.

(** The validation pass on a constructed engine. *)
Lemma constructed_val_raises config tag w0 self w1 vl w :
  Engine.__init__ E config tag w0 = (Ok self, w1) →
  Engine.split self "val" = Ok vl →
  batches vl ≠ [] →
  ∃ w', Engine._val self w = (Raise (AttributeError "num_clsses"), w').
Proof.
  intros Hinit Hsplit Hbs.
  pose proof (init_attrs _ _ _ _ _ Hinit) as (_ & _ & Hattrs).
  pose proof (init_more_than_one_class _ _ _ _ _ Hinit) as Hmulti.
  eexists. apply val_pass_raises with (vl := vl); try done.
  sub_attrs Hattrs.
Qed.

(** C4.  The constructor assigns the class count to [num_classes] and
    never assigns [num_clsses], the name that the validation and the
    evaluation pass read.  So on every engine the constructor returns,
    whatever its class count (one logit or more), the validation pass raises
    [AttributeError] at its first batch, and so does the evaluation pass on
    the batch it draws. *)
Theorem num_clsses_never_assigned config tag w0 self w1 :
  Engine.__init__ E config tag w0 = (Ok self, w1) →
  self !! "num_clsses" = None ∧
  is_Some (self !! "num_classes") ∧
  (∀ vl w, Engine.split self "val" = Ok vl → batches vl ≠ [] →
     ∃ w', Engine._val self w = (Raise (AttributeError "num_clsses"), w')) ∧
  (∀ el b d w, Engine.split self "eval" = Ok el →
     batches el !! drawn w = Some b →
     ∃ w', Engine._eval self (VDict d) w = (Raise (AttributeError "num_clsses"), w')).
Proof.
  intros Hinit.
  pose proof (init_attrs _ _ _ _ _ Hinit) as (Hnone & Hsome & Hattrs).
  pose proof (init_more_than_one_class _ _ _ _ _ Hinit) as Hmulti.
  split; [done|]. split; [done|]. split.
  - intros vl w Hsplit Hbs. by eapply constructed_val_raises.
  - intros el b d w Hsplit Hb. eexists.
    apply eval_pass_raises with (el := el) (b := b); try done.
    sub_attrs Hattrs.
Qed.

(** C7.  On an engine the constructor returns, the training pass reports
    sum(batch loss × batch size) / len(dataset) over the batches it
    processed, but the validation pass reports no loss: it raises at its
    first batch, on the attribute name of C4. *)
Theorem validation_loss_unreported config tag w0 self w1 tl vl w :
  Engine.__init__ E config tag w0 = (Ok self, w1) →
  Engine.split self "train" = Ok tl →
  Engine.split self "val" = Ok vl →
  dataset_len tl ≠ 0%nat →
  batches vl ≠ [] →
  "info" ∈ util.methods (log E) →
  (∃ inc w',
     Engine._train_one_epoch E self w =
       (Ok (fdiv (weighted_sum
                    (train_losses inc (train_mode (model w)) (batches tl))
                    (sizes (batches tl)))
                 (of_nat (dataset_len tl))), w')) ∧
  (∃ w', Engine._val self w = (Raise (AttributeError "num_clsses"), w')).
Proof.
  intros Hinit Htrain Hval Hlen Hbs Hinfo.
  pose proof (init_attrs _ _ _ _ _ Hinit) as (Hnone & Hsome & Hattrs).
  split.
  - destruct (Hattrs "is_inception") as [vi Hvi]; [in_list|].
    destruct (train_pass_run E self tl vi w) as (logs & _ & ->); try done.
    { sub_attrs Hattrs. }
    unfold py_div. rewrite decide_False by done. eauto.
  - by eapply constructed_val_raises.
Qed.
End Engine_claims.

Section Sorted_epochs.

Lemma seqZ_sorted m n : StronglySorted Z.lt (seqZ m n).
Proof.
  unfold seqZ. generalize (Z.to_nat n) as k. generalize 0%nat as a.
  intros a k. revert a. induction k as [|k IH]; intros a; cbn.
  - constructor.
  - constructor; [apply IH|].
    apply Forall_forall. intros z (i & -> & Hi)%list_elem_of_fmap.
    apply elem_of_seq in Hi. lia.
Qed.

Lemma sublist_sorted {A} (R : relation A) (l1 l2 : list A) :
  l1 `sublist_of` l2 → StronglySorted R l2 → StronglySorted R l1.
Proof.
  induction 1 as [|x l1 l2 Hsub IH|x l1 l2 Hsub IH]; intros Hsorted.
  - constructor.
  - apply StronglySorted_inv in Hsorted as [Hs Hall]. constructor; [by apply IH|].
    rewrite Forall_forall in *. intros y Hy. apply Hall.
    by eapply elem_of_sublist.
  - apply StronglySorted_inv in Hsorted as [Hs _]. by apply IH.
Qed.

Lemma sorted_lt_le (l : list Z) : StronglySorted Z.lt l → StronglySorted Z.le l.
Proof.
  induction 1 as [|x l Hs IH Hall]; constructor; [done|].
  eapply Forall_impl; [exact Hall|]. intros y Hy. cbn in *. lia.
Qed.
End Sorted_epochs.

Section Train_claims.
Context `{Torch}.
Variable E : env.
Implicit Types (self : gmap string value) (w : world).

(** The epoch bounds of a resumed run. *)
Lemma epoch_bounds_resumed self d ck epoch n :
  self !! "checkpoint" = Some (VDict ck) →
  ck !! "epoch" = Some (VInt epoch) →
  default (VInt 50) (d !! "num_epochs") = VInt n →
  Engine.epoch_bounds self (VDict d)
    = Ok (epoch, if n <? epoch then epoch + 50 else n).
Proof.
  intros Hck Hepoch Hn. unfold Engine.epoch_bounds, getattr. run.
  rewrite Hck. cbn [is_None subscript get]. rewrite Hepoch.
  change (match d !! "num_epochs" with Some x => x | None => VInt 50 end)
    with (default (VInt 50) (d !! "num_epochs")).
  rewrite Hn. done.
Qed.

Lemma train_unfold self config d w :
  self !! "config" = Some config →
  subscript config "train" = Ok (VDict d) →
  Engine.train E self w = Engine._train E self (VDict d) w.
Proof.
  intros Hcfg Htrain. unfold Engine.train, getattr. run. by rewrite Hcfg, Htrain.
Qed.

(** C1, as amended.  A resumed run on a ready engine, from a checkpoint of
    epoch [epoch] with [num_epochs] configured (50 when absent): when
    [num_epochs < epoch] the bound is extended to [epoch + 50] and the loop
    trains and validates the 50 epochs [epoch .. epoch + 49]; otherwise it
    trains and validates [epoch .. num_epochs - 1], which is no epoch at
    all when [num_epochs = epoch]. *)
Theorem train_epoch_range self tl vl config d ck epoch num_epochs w :
  ready E self tl vl →
  self !! "config" = Some config →
  subscript config "train" = Ok (VDict d) →
  self !! "checkpoint" = Some (VDict ck) →
  ck !! "epoch" = Some (VInt epoch) →
  default (VInt 50) (d !! "num_epochs") = VInt num_epochs →
  ∃ w' new,
    Engine.train E self w = (Ok (), w') ∧
    trace w' = trace w ++ new ∧
    trained_epochs new =
      (if num_epochs <? epoch then seqZ epoch 50
       else seqZ epoch (num_epochs - epoch)) ∧
    (validated new).*1 = trained_epochs new.
Proof.
  intros Hready Hcfg Htrain Hck Hepoch Hnum.
  rewrite (train_unfold self config d) by done.
  pose proof (epoch_bounds_resumed self d ck epoch num_epochs Hck Hepoch Hnum) as Hb.
  destruct (train_run E self tl vl d _ _ w Hready Hb)
    as (accs & w' & new & -> & _ & Ht & Htr & Hv & Hlen & _).
  exists w', new. split; [done|]. split; [done|]. split.
  - rewrite Htr. unfold range. destruct (num_epochs <? epoch); [|done].
    f_equal. lia.
  - rewrite Hv, Htr. apply fst_zip. lia.
Qed.

(** C2, as amended.  In one call of [train()] on a ready engine, a
    checkpoint is written at the end of epoch [k] if and only if the
    validation accuracy of epoch [k] is strictly greater than 0.0 (the
    initial best) and than the validation accuracy of every earlier epoch
    of the call. *)
Theorem checkpoint_iff_improvement `{!FloatOrder}
    self tl vl config d start_epoch num_epochs w :
  ready E self tl vl →
  self !! "config" = Some config →
  subscript config "train" = Ok (VDict d) →
  Engine.epoch_bounds self (VDict d) = Ok (start_epoch, num_epochs) →
  ∃ w' new,
    Engine.train E self w = (Ok (), w') ∧
    trace w' = trace w ++ new ∧
    (validated new).*1 = range start_epoch num_epochs ∧
    ∀ k a, (k, a) ∈ validated new →
      (k ∈ saved_epochs new ↔
       fgt a f0 = true ∧
       ∀ j b, (j, b) ∈ validated new → j < k → fgt a b = true).
Proof.
  intros Hready Hcfg Htrain Hb.
  rewrite (train_unfold self config d) by done.
  destruct (train_run E self tl vl d _ _ w Hready Hb)
    as (accs & w' & new & -> & _ & Ht & Htr & Hv & Hlen & Hs).
  assert ((validated new).*1 = range start_epoch num_epochs) as Hkeys.
  { rewrite Hv. apply fst_zip. lia. }
  exists w', new. split; [done|]. split; [done|]. split; [done|].
  intros k a Hka. rewrite Hs. apply improvements_spec; [|done].
  rewrite Hkeys. apply seqZ_sorted.
Qed.
End Train_claims.

Section Saves.
Context `{Torch}.
Variable E : env.
Implicit Types (self : gmap string value) (w : world).

Lemma saves_in_quiet {A} (m : M world A) l :
  (∀ w, trace (m w).2 = trace w) → saves_in l m.
Proof.
  intros Hm w. exists []. rewrite Hm, app_nil_r. split; [done|apply sublist_nil_l].
Qed.

Lemma saves_in_ret {A} (x : A) l : saves_in l (mret x : M world A).
Proof. by apply saves_in_quiet. Qed.

Lemma saves_in_raise {A} e l : saves_in l (raise e : M world A).
Proof. by apply saves_in_quiet. Qed.

Lemma saves_in_lift {A} (r : res A) l : saves_in l (lift r : M world A).
Proof. by apply saves_in_quiet. Qed.

Lemma saves_in_gets {A} (f : world → A) l : saves_in l (gets f).
Proof. by apply saves_in_quiet. Qed.

Lemma saves_in_update_model f l : saves_in l (update_model f).
Proof. by apply saves_in_quiet. Qed.

Lemma saves_in_next ld l : saves_in l (next ld).
Proof.
  apply saves_in_quiet. intros w. unfold next.
  cbv [mbind M_bind bind gets modify mret M_ret ret raise].
  by destruct (batches ld !! drawn w).
Qed.

Lemma saves_in_bind {A B} (m : M world A) (k : A → M world B) l1 l2 :
  saves_in l1 m → (∀ a, saves_in l2 (k a)) → saves_in (l1 ++ l2) (x ← m; k x).
Proof.
  intros Hm Hk w. cbv [mbind M_bind bind].
  destruct (Hm w) as (new1 & Ht1 & Hs1).
  destruct (m w) as [[a|e] w1]; cbn [snd] in *.
  - destruct (Hk a w1) as (new2 & Ht2 & Hs2).
    exists (new1 ++ new2). rewrite Ht2, Ht1, <- app_assoc. split; [done|].
    unfold saved_epochs in *. rewrite omap_app. by apply sublist_app.
  - exists new1. split; [done|]. by apply sublist_inserts_r.
Qed.

Lemma saves_in_bind_l {A B} (m : M world A) (k : A → M world B) l :
  saves_in [] m → (∀ a, saves_in l (k a)) → saves_in l (x ← m; k x).
Proof. intros Hm Hk. by apply (saves_in_bind m k [] l). Qed.

Lemma saves_in_bind_r {A B} (m : M world A) (k : A → M world B) l :
  saves_in l m → (∀ a, saves_in [] (k a)) → saves_in l (x ← m; k x).
Proof.
  intros Hm Hk. rewrite <- (app_nil_r l). by apply (saves_in_bind m k l []).
Qed.

Lemma saves_in_emit e l :
  saved_epochs [e] `sublist_of` l → saves_in l (emit e).
Proof. intros Hs w. exists [e]. done. Qed.

Lemma saves_in_log level fmt args l : saves_in l (log_call E level fmt args).
Proof.
  unfold log_call. apply saves_in_bind_l; [apply saves_in_lift|].
  intros _. apply saves_in_emit. apply sublist_nil_l.
Qed.

(** A loop whose body writes nothing writes nothing; a loop over epochs
    whose body writes at most the checkpoint of its epoch writes them in
    the order of the loop. *)
Lemma saves_in_for_fold_nil {A S} (body : S → A → M world S) xs s :
  (∀ s x, saves_in [] (body s x)) → saves_in [] (for_fold xs body s).
Proof.
  intros Hbody. revert s. induction xs as [|x xs IH]; intros s; cbn [for_fold].
  - apply (saves_in_ret s).
  - apply (saves_in_bind_l (body s x)); [apply Hbody|apply IH].
Qed.

Lemma saves_in_for_fold {S} (body : S → Z → M world S) ks s :
  (∀ s k, saves_in [k] (body s k)) → saves_in ks (for_fold ks body s).
Proof.
  intros Hbody. revert s. induction ks as [|k ks IH]; intros s; cbn [for_fold].
  - apply (saves_in_ret s).
  - apply (saves_in_bind (body s k) _ [k] ks); [apply Hbody|apply IH].
Qed.

(** Proves that a computation without [torch.save] writes nothing. *)
Ltac quiet :=
  repeat first
    [ apply saves_in_ret | apply saves_in_raise | apply saves_in_lift
    | apply saves_in_gets | apply saves_in_update_model | apply saves_in_next
    | apply saves_in_log
    | apply saves_in_emit; apply sublist_nil_l
    | apply saves_in_bind_l; [|intros ?]
    | apply saves_in_for_fold_nil; intros ? ?
    | progress cbv beta zeta
    | match goal with
      | |- saves_in _ (match ?x with _ => _ end) => destruct x
      | |- saves_in _ ((match ?x with _ => _ end) _) => destruct x
      end ].

Lemma train_one_epoch_quiet self : saves_in [] (Engine._train_one_epoch E self).
Proof. unfold Engine._train_one_epoch. quiet. Qed.

Lemma val_quiet self : saves_in [] (Engine._val self).
Proof. unfold Engine._val. quiet. Qed.

Lemma save_model_saves self save_dir k : saves_in [k] (Engine._save_model E self save_dir k).
Proof.
  unfold Engine._save_model.
  repeat (apply saves_in_bind_l; [quiet|intros ?]).
  by apply saves_in_emit.
Qed.

Lemma epoch_body_saves self save_dir locals k :
  saves_in [k] (Engine.epoch_body E self save_dir locals k).
Proof.
  unfold Engine.epoch_body. destruct locals as [accs best].
  apply saves_in_bind_l; [apply train_one_epoch_quiet|intros train_loss].
  apply saves_in_bind_l; [apply saves_in_log|intros _].
  apply saves_in_bind_l; [apply val_quiet|intros [val_loss val_acc]].
  apply saves_in_bind_r; [|intros ?; quiet].
  destruct (fgt val_acc best); [|quiet].
  apply saves_in_bind_r; [apply save_model_saves|intros ?; quiet].
Qed.

Lemma saves_in_lift_Ok {A B} (a : A) (k : A → M world B) l :
  saves_in l (k a) → saves_in l (x ← lift (Ok a); k x).
Proof. intros Hk w. apply Hk. Qed.

Lemma saves_in_lift_Raise {A B} e (k : A → M world B) l :
  saves_in l (x ← lift (Raise e); k x).
Proof. by apply saves_in_quiet. Qed.

(** [_train] and [train] write checkpoints in the order of the epoch
    loop, on every engine object and whether they return or raise. *)
Lemma _train_saves self train_config :
  ∃ ks, StronglySorted Z.lt ks ∧ saves_in ks (Engine._train E self train_config).
Proof.
  unfold Engine._train.
  destruct (get train_config "save_dir" (VStr "checkpoints")) as [save_dir|e].
  - destruct (Engine.epoch_bounds self train_config) as [[start num]|e].
    + exists (range start num). split; [apply seqZ_sorted|].
      apply saves_in_lift_Ok, saves_in_lift_Ok. cbv beta iota.
      apply saves_in_bind_l; [apply saves_in_log|intros _].
      apply saves_in_bind_r; [|intros ?; apply saves_in_ret].
      apply saves_in_for_fold. intros locals k. apply epoch_body_saves.
    + exists []. split; [constructor|].
      apply saves_in_lift_Ok, saves_in_lift_Raise.
  - exists []. split; [constructor|]. apply saves_in_lift_Raise.
Qed.

Lemma train_saves self :
  ∃ ks, StronglySorted Z.lt ks ∧ saves_in ks (Engine.train E self).
Proof.
  destruct (getattr self "config") as [config|e] eqn:Hcfg.
  - destruct (subscript config "train") as [train_config|e] eqn:Htc.
    + destruct (_train_saves self train_config) as (ks & Hks & Hsaves).
      exists ks. split; [done|]. intros w. unfold Engine.train.
      cbv [mbind M_bind bind lift]. rewrite Hcfg, Htc. apply Hsaves.
    + exists []. split; [constructor|]. apply saves_in_quiet. intros w.
      unfold Engine.train. cbv [mbind M_bind bind lift]. by rewrite Hcfg, Htc.
  - exists []. split; [constructor|]. apply saves_in_quiet. intros w.
    unfold Engine.train. cbv [mbind M_bind bind lift]. by rewrite Hcfg.
Qed.

(** C8.  In one call of [train()], on any engine object and whether the
    call returns or raises, the epoch numbers of the checkpoints written
    are in non-decreasing order of writing. *)
Theorem saved_epochs_nondecreasing self w :
  ∃ new,
    trace (Engine.train E self w).2 = trace w ++ new ∧
    StronglySorted Z.le (saved_epochs new).
Proof.
  destruct (train_saves self) as (ks & Hks & Hsaves).
  destruct (Hsaves w) as (new & Ht & Hsub).
  exists new. split; [done|].
  apply sorted_lt_le. by eapply sublist_sorted.
Qed.

End Saves.

Section Device_and_evaluation.
Context `{Torch}.
Variable E : env.
Implicit Types (self : gmap string value) (w : world).

(** The CPU branch of the device check. *)
Lemma BaseEngine_init_cpu config tag cfg w :
  load_config E config = Ok cfg →
  cuda_is_available E = false →
  "warn" ∈ util.methods (log E) →
  ∃ self,
    BaseEngine.__init__ E config tag w =
      (Ok self,
       World (model w) (drawn w)
         (trace w ++
          [Log "warn" "GPU is not available. Please check the configuration." []])) ∧
    self !! "device" = Some (VStr "cpu").
Proof.
  intros Hcfg Hcuda Hwarn. unfold BaseEngine.__init__.
  cbv [mbind M_bind bind lift mret M_ret ret]. rewrite Hcfg, Hcuda.
  rewrite bool_decide_true by done. rewrite log_call_run by done.
  eexists. split; [reflexivity|]. unfold setattr. by rewrite lookup_insert_eq.
Qed.

(** C9, the failing branch.  When a GPU is available, the device check logs
    through [log.ward]; with a logger that has no such method (the other
    branch calls [log.warn]) this raises [AttributeError] and neither
    [BaseEngine.__init__] nor [Engine.__init__] returns an engine. *)
Theorem BaseEngine_init_cuda_raises config tag cfg w :
  load_config E config = Ok cfg →
  cuda_is_available E = true →
  "ward" ∉ util.methods (log E) →
  BaseEngine.__init__ E config tag w = (Raise (AttributeError "ward"), w) ∧
  Engine.__init__ E config tag w = (Raise (AttributeError "ward"), w).
Proof.
  intros Hcfg Hcuda Hward.
  assert (BaseEngine.__init__ E config tag w = (Raise (AttributeError "ward"), w))
    as Hbase.
  { unfold BaseEngine.__init__, log_call, util.getattr.
    cbv [mbind M_bind bind lift mret M_ret ret]. rewrite Hcfg, Hcuda.
    rewrite bool_decide_false by done. by rewrite decide_False. }
  split; [done|]. unfold Engine.__init__.
  unfold mbind at 1, M_bind at 1, bind at 1. by rewrite Hbase.
Qed.

(** C3, as amended.  [eval()] on an engine that has the class count under
    the name the pass reads draws exactly one batch from the evaluation
    split.  The pair that [_eval] computes is the loss of that batch times
    its size, and its number of correct predictions, each divided by the
    length of the whole evaluation dataset; [eval()] itself returns
    nothing. *)
Theorem eval_single_batch self el config d x y multi w :
  Engine.split self "eval" = Ok el →
  (∀ a, a ∈ ["model"; "device"; "criterion"] → is_Some (self !! a)) →
  Engine.more_than_one_class self = Ok multi →
  self !! "config" = Some config →
  subscript config "eval" = Ok (VDict d) →
  batches el !! drawn w = Some (x, y) →
  dataset_len el ≠ 0%nat →
  let m := eval_mode (model w) in
  let loss := criterion (call m x) (unsqueeze_float y) in
  let correct := count_equal (predict multi (call m x)) (unsqueeze_float y) in
  ∃ w',
    Engine._eval self (VDict d) w =
      (Ok (fdiv (fadd f0 (fmul loss (of_nat (size0 x)))) (of_nat (dataset_len el)),
           fdiv (of_nat correct) (of_nat (dataset_len el))), w') ∧
    drawn w' = S (drawn w) ∧
    Engine.eval self w = (Ok (), w').
Proof.
  intros Hsplit Hattrs Hmulti Hcfg Heval Hb Hlen m loss correct.
  destruct (eval_pass_run self el d x y multi w) as (roc & Hrun & _); try done.
  eexists. split; [exact Hrun|]. split; [done|].
  unfold Engine.eval, getattr. cbv [mbind M_bind bind lift mret M_ret ret].
  by rewrite Hcfg, Heval, Hrun.
Qed.
End Device_and_evaluation.

(** * Concrete runs *)

Section Toy_facts.
Import Toy.

#[export] Instance toy_order : FloatOrder.
Proof.
  split; cbn; intros x y.
  - intros Hxy%bool_decide_eq_true. apply bool_decide_eq_false.
    intros Hyx. by apply (Qclt_not_le _ _ Hxy), Qclt_le_weak.
  - intros z Hxy%bool_decide_eq_true.
    destruct (Qclt_le_dec z x) as [Hzx|Hxz].
    + left. by apply bool_decide_eq_true.
    + right. apply bool_decide_eq_true. by apply (Qclt_le_trans _ x).
Qed.

Lemma toy_logger_info : "info" ∈ util.methods logger.
Proof. apply (bool_decide_unpack _). vm_compute. exact I. Qed.

Lemma toy_logger_infov : "infov" ∈ util.methods logger.
Proof. apply (bool_decide_unpack _). vm_compute. exact I. Qed.

Lemma toy_logger_ward : "ward" ∉ util.methods logger.
Proof. apply (bool_decide_unpack _). vm_compute. exact I. Qed.

Lemma run_eq {A W} (p : res A * W) (r : res A) : p.1 = r → p = (r, p.2).
Proof. destruct p. by intros <-. Qed.

(** Proves that the patched engine of a closed toy environment is ready. *)
Ltac toy_ready :=
  split;
  [ reflexivity | reflexivity
  | cbn; discriminate | cbn; discriminate | cbn; discriminate
  | reflexivity
  | intros a Ha; repeat (apply elem_of_cons in Ha as [->|Ha]);
      [eexists; reflexivity..|by apply elem_of_nil in Ha]
  | exact toy_logger_info | exact toy_logger_infov
  | intros ? ? ?; reflexivity ].

Lemma fresh_ready :
  ready fresh (patched fresh)
    train_split (val_split [1; 3]).
Proof. toy_ready. Qed.

Lemma resumed_ready :
  ready resumed (patched resumed)
    train_split (val_split [1; 3]).
Proof. toy_ready. Qed.

Lemma fresh_init :
  Engine.__init__ fresh "resnet18" "" w0
    = (Ok (engine fresh), (Engine.__init__ fresh "resnet18" "" w0).2).
Proof. apply run_eq. reflexivity. Qed.

(** The specification's dataset example: two images with categories 1 and
    16 under the binary map give the labels 1 and 0. *)
Example getitem_binary_example :
  NACTI.__init__ logger "/data" "binary" None disk
    = (Ok (nacti "binary"), (NACTI.__init__ logger "/data" "binary" None disk).2) ∧
  (NACTI.__getitem__ (nacti "binary") 0 disk).1 = Ok (7%nat, 1) ∧
  (NACTI.__getitem__ (nacti "binary") 1 disk).1 = Ok (8%nat, 0).
Proof. split; [apply run_eq|]; done. Qed.

Lemma disk_annotated label_type : NACTI.annotated (nacti label_type) [1; 16].
Proof. eexists. split; [reflexivity|]. by repeat constructor. Qed.


(** C6 on the example directory with the selector "species". *)
Lemma NACTI_init_rejects_unknown_label_type_witness :
  ∃ e w' new,
    NACTI.__init__ logger "/data" "species" None disk = (Raise e, w') ∧
    NACTI.trace w' = NACTI.trace disk ++ new ∧
    NACTI.image_opens new = [] ∧
    (∀ md,
       NACTI.fs disk !! path_join "/data" "nacti_metadata_tmp.json"
         = Some (NACTI.JsonFile md) →
       "error" ∈ util.methods logger →
       e = KeyError (KStr "species") ∧
       new = [NACTI.Open (path_join "/data" "nacti_metadata_tmp.json");
              NACTI.Log "error"
                "Specify right type for NACTI dataset - binary or multi"]).
Proof.
  apply (NACTI_init_rejects_unknown_label_type logger "/data" "species" None disk).
  apply (bool_decide_unpack _). vm_compute. exact I.
Defined.

(** C10 as amended, on the example directory at index 0: category id 1,
    image a.jpg in place. *)
Lemma NACTI_multi_items_fail_witness :
  ∃ self w1,
    NACTI.__init__ logger "/data" "multi" None disk = (Ok self, w1) ∧
    NACTI.metadata self = metadata ∧
    NACTI.label_map self = ∅ ∧
    (∀ j w2, ∃ e, (NACTI.__getitem__ self j w2).1 = Raise e) ∧
    NACTI.__getitem__ self 0 disk =
      (Raise (KeyError (KInt 1)),
       NACTI.World (NACTI.fs disk)
         (NACTI.trace disk ++ [NACTI.ImageOpen (path_join "/data" "a.jpg")])).
Proof.
  apply (NACTI_multi_items_fail logger "/data" None disk metadata
           (JArr [JObj (dict_display [("file_name", JStr "a.jpg")]);
                  JObj (dict_display [("file_name", JStr "b.jpg")])])
           (JObj (dict_display [("file_name", JStr "a.jpg")])) "a.jpg"
           (JArr [JObj (dict_display [("category_id", JNum 1)]);
                  JObj (dict_display [("category_id", JNum 16)])])
           (JObj (dict_display [("category_id", JNum 1)])) 1 0 disk).
  - reflexivity.
  - reflexivity.
  - reflexivity.
  - reflexivity.
  - reflexivity.
  - reflexivity.
  - reflexivity.
Defined.

(** C10 as stated fails when the image file is missing: the adapter is
    constructed with "multi" from the metadata file, annotation 0 has the
    category id 1, and item 0 raises the [OSError] of [Image.open] at
    line 42, not a [KeyError]: the label map of line 46 is not reached. *)
Lemma multi_missing_image_counterexample :
  let self := nacti "multi" in
  let run := NACTI.__getitem__ self 0 metadata_only in
  NACTI.__init__ logger "/data" "multi" None metadata_only
    = (Ok self, (NACTI.__init__ logger "/data" "multi" None metadata_only).2) ∧
  NACTI.annotated self [1; 16] ∧
  NACTI.label_map self = ∅ ∧
  run.1 = Raise (OSError "/data/a.jpg") ∧
  (∀ k, run.1 ≠ Raise (KeyError k)) ∧
  NACTI.trace run.2 = [NACTI.ImageOpen "/data/a.jpg"].
Proof.
  cbv zeta. split; [apply run_eq; reflexivity|].
  split; [apply disk_annotated|]. split; [reflexivity|].
  split; [reflexivity|]. split; [intros k; discriminate|reflexivity].
Qed.

(** With "multi", item 0 of the example directory raises the [KeyError] of
    its category id. *)
Example getitem_multi_example :
  (NACTI.__getitem__ (nacti "multi") 0 disk).1 = Raise (KeyError (KInt 1)).
Proof. reflexivity. Qed.

(** ** The engine *)

(** C4 on the engine constructed for the fresh run. *)
Lemma num_clsses_never_assigned_witness :
  engine fresh !! "num_clsses" = None ∧
  is_Some (engine fresh !! "num_classes") ∧
  (∀ vl w, Engine.split (engine fresh) "val" = Ok vl → batches vl ≠ [] →
     ∃ w', Engine._val (engine fresh) w = (Raise (AttributeError "num_clsses"), w')) ∧
  (∀ el b d w, Engine.split (engine fresh) "eval" = Ok el →
     batches el !! drawn w = Some b →
     ∃ w', Engine._eval (engine fresh) (VDict d) w
             = (Raise (AttributeError "num_clsses"), w')).
Proof.
  apply (num_clsses_never_assigned fresh "resnet18" "" w0 (engine fresh)
           (Engine.__init__ fresh "resnet18" "" w0).2).
  apply run_eq. reflexivity.
Defined.

(** C7 on the engine constructed for the fresh run. *)
Lemma validation_loss_unreported_witness :
  (∃ inc w',
     Engine._train_one_epoch fresh (engine fresh) w0 =
       (Ok (fdiv (weighted_sum
                    (train_losses inc (train_mode (model w0)) (batches train_split))
                    (sizes (batches train_split)))
                 (of_nat (dataset_len train_split))), w')) ∧
  (∃ w', Engine._val (engine fresh) w0 = (Raise (AttributeError "num_clsses"), w')).
Proof.
  apply (validation_loss_unreported fresh "resnet18" "" w0 (engine fresh)
           (Engine.__init__ fresh "resnet18" "" w0).2
           train_split (val_split [1; 3]) w0).
  - apply run_eq. reflexivity.
  - reflexivity.
  - reflexivity.
  - cbn. discriminate.
  - cbn. discriminate.
  - apply (bool_decide_unpack _). vm_compute. exact I.
Defined.

(** On the constructed engine of the fresh run, [train()] raises in the
    validation pass of its first epoch, before any checkpoint. *)
Example train_constructed_example :
  (Engine.train fresh (engine fresh) w0).1 = Raise (AttributeError "num_clsses") ∧
  trained_epochs (trace (Engine.train fresh (engine fresh) w0).2) = [0] ∧
  saved_epochs (trace (Engine.train fresh (engine fresh) w0).2) = [].
Proof. done. Qed.

(** C9 on the machine with a GPU. *)
Lemma BaseEngine_init_cuda_raises_witness :
  BaseEngine.__init__ gpu "resnet18" "" w0 = (Raise (AttributeError "ward"), w0) ∧
  Engine.__init__ gpu "resnet18" "" w0 = (Raise (AttributeError "ward"), w0).
Proof.
  apply (BaseEngine_init_cuda_raises gpu "resnet18" "" (config 3) w0).
  - reflexivity.
  - reflexivity.
  - apply (bool_decide_unpack _). vm_compute. exact I.
Defined.

(** C1 as amended, on the specification's example: 50 epochs configured,
    checkpoint of epoch 80, so the run spans the epochs 80..129. *)
Lemma train_epoch_range_witness :
  ∃ w' new,
    Engine.train resumed (patched resumed) w0 = (Ok (), w') ∧
    trace w' = trace w0 ++ new ∧
    trained_epochs new = seqZ 80 50 ∧
    (validated new).*1 = trained_epochs new.
Proof.
  apply (train_epoch_range resumed (patched resumed)
           train_split (val_split [1; 3])
           (config 50) (dict_display [("num_epochs", VInt 50)])
           (dict_display [("epoch", VInt 80)]) 80 50 w0).
  - exact resumed_ready.
  - reflexivity.
  - reflexivity.
  - reflexivity.
  - reflexivity.
  - reflexivity.
Defined.

(** C1 as stated fails when [num_epochs] equals the checkpoint's epoch:
    resumed from epoch 50 with 50 epochs configured, [train()] returns
    without running any epoch, not the 50 epochs 50..99. *)
Lemma train_at_bound_counterexample :
  let self := engine resumed_at_bound in
  let run := Engine.train resumed_at_bound self w0 in
  Engine.__init__ resumed_at_bound "resnet18" "" w0
    = (Ok self, (Engine.__init__ resumed_at_bound "resnet18" "" w0).2) ∧
  Engine.epoch_bounds self (VDict (dict_display [("num_epochs", VInt 50)]))
    = Ok (50, 50) ∧
  run.1 = Ok () ∧
  trained_epochs (trace run.2) = [] ∧
  trained_epochs (trace run.2) ≠ seqZ 50 50.
Proof.
  cbv zeta. split; [apply run_eq; reflexivity|].
  split; [reflexivity|]. split; [reflexivity|]. split; [reflexivity|]. discriminate.
Qed.

(** C2 as amended, on the fresh run of three epochs. *)
Lemma checkpoint_iff_improvement_witness :
  ∃ w' new,
    Engine.train fresh (patched fresh) w0 = (Ok (), w') ∧
    trace w' = trace w0 ++ new ∧
    (validated new).*1 = range 0 3 ∧
    ∀ k a, (k, a) ∈ validated new →
      (k ∈ saved_epochs new ↔
       fgt a f0 = true ∧
       ∀ j b, (j, b) ∈ validated new → j < k → fgt a b = true).
Proof.
  apply (checkpoint_iff_improvement fresh (patched fresh)
           train_split (val_split [1; 3])
           (config 3) (dict_display [("num_epochs", VInt 3)]) 0 3 w0).
  - exact fresh_ready.
  - reflexivity.
  - reflexivity.
  - reflexivity.
Defined.

(** The run of that witness: accuracies 1/2, 1/2 and 1 over the epochs 0,
    1 and 2; checkpoints after epoch 0 and epoch 2, none for the tie. *)
Example train_fresh_example :
  let run := Engine.train fresh (patched fresh) w0 in
  run.1 = Ok () ∧
  fractions (validated (trace run.2)) = [(0, (1 # 2)%Q); (1, (1 # 2)%Q); (2, (1 # 1)%Q)] ∧
  saved_epochs (trace run.2) = [0; 2].
Proof. done. Qed.

(** C2 as stated fails at a first epoch of accuracy 0.0: no earlier epoch
    was validated, so the accuracy exceeds every earlier one, yet no
    checkpoint is written. *)
Lemma first_epoch_counterexample :
  let run := Engine.train hopeless (patched hopeless) w0 in
  run.1 = Ok () ∧
  fractions (validated (trace run.2)) = [(0, (0 # 1)%Q)] ∧
  saved_epochs (trace run.2) = [] ∧
  ¬ (∀ k a, (k, a) ∈ validated (trace run.2) →
       (k ∈ saved_epochs (trace run.2) ↔
        ∀ j b, (j, b) ∈ validated (trace run.2) → j < k → fgt a b = true)).
Proof.
  cbv zeta. split; [reflexivity|]. split; [reflexivity|]. split; [reflexivity|].
  assert ((validated (trace (Engine.train hopeless (patched hopeless) w0).2)).*1
            = [0]) as Hkeys by reflexivity.
  assert (saved_epochs (trace (Engine.train hopeless (patched hopeless) w0).2)
            = []) as Hsaved by reflexivity.
  rewrite Hsaved.
  destruct (validated (trace (Engine.train hopeless (patched hopeless) w0).2))
    as [|[k a] [|? ?]]; try discriminate Hkeys.
  injection Hkeys as ->. intros Hclaim.
  destruct (Hclaim 0 a) as [_ Hsave]; [apply list_elem_of_here|].
  apply elem_of_nil in Hsave; [done|].
  intros j b [= -> ->]%list_elem_of_singleton. lia.
Qed.

(** C3 as amended, on the evaluation split of the toy environment. *)
Lemma eval_single_batch_witness :
  let m := eval_mode (model w0) in
  let loss := criterion (call m inputs) (unsqueeze_float [0; 1]) in
  let correct := count_equal (predict true (call m inputs)) (unsqueeze_float [0; 1]) in
  ∃ w',
    Engine._eval (patched fresh) (VDict (dict_display [])) w0 =
      (Ok (fdiv (fadd f0 (fmul loss (of_nat (size0 inputs))))
                (of_nat (dataset_len eval_split)),
           fdiv (of_nat correct) (of_nat (dataset_len eval_split))), w') ∧
    drawn w' = S (drawn w0) ∧
    Engine.eval (patched fresh) w0 = (Ok (), w').
Proof.
  apply (eval_single_batch (patched fresh)
           eval_split (config 3) (dict_display []) inputs [0; 1] true w0).
  - reflexivity.
  - intros a Ha. repeat (apply elem_of_cons in Ha as [->|Ha]);
      [eexists; reflexivity..|by apply elem_of_nil in Ha].
  - reflexivity.
  - reflexivity.
  - reflexivity.
  - reflexivity.
  - cbn. discriminate.
Defined.

(** C3 as stated fails on an evaluation split of four samples in batches of
    two: the batch drawn has loss 1 and one correct prediction out of two,
    so over that batch alone the weighted-average loss is 1 and the
    accuracy 1/2; [_eval] returns 1/2 and 1/4, the sums divided by the
    length of the whole dataset. *)
Lemma eval_whole_dataset_counterexample :
  let run := Engine._eval (patched fresh) (VDict (dict_display [])) w0 in
  let loss := criterion (call 0%nat inputs) [0; 1] in
  let correct := count_equal (call 0%nat inputs) [0; 1] in
  let batch_loss := fdiv (fmul loss (of_nat 2)) (of_nat 2) in
  let batch_acc := fdiv (of_nat correct) (of_nat 2) in
  drawn run.2 = 1%nat ∧
  this batch_loss = (1 # 1)%Q ∧
  this batch_acc = (1 # 2)%Q ∧
  match run.1 with
  | Ok (eval_loss, eval_acc) =>
      this eval_loss = (1 # 2)%Q ∧ this eval_acc = (1 # 4)%Q
  | Raise _ => False
  end ∧
  run.1 ≠ Ok (batch_loss, batch_acc).
Proof.
  cbv zeta. split; [reflexivity|]. split; [reflexivity|]. split; [reflexivity|].
  split; [done|]. intros Hrun.
  apply (f_equal (λ r : res (Qc * Qc),
                    match r with Ok (l, _) => this l | Raise _ => 0%Q end)) in Hrun.
  discriminate Hrun.
Qed.
End Toy_facts.

(** * More about the dataset adapters *)

Section NACTI_more.
Context {image : Type}.
Implicit Types (log : util.logger) (w : NACTI.world (image:=image))
  (self : NACTI.t (image:=image)).

(** X1.  An item access is read-only and opens at most one file: the file
    system is as before, and the trace is as before or longer by the one
    [Image.open] of [join(data_dir, file_name)], whether the call returns
    or raises. *)
Theorem getitem_opens_at_most_one_image self idx w :
  NACTI.fs (NACTI.__getitem__ self idx w).2 = NACTI.fs w ∧
  (NACTI.trace (NACTI.__getitem__ self idx w).2 = NACTI.trace w ∨
   ∃ file_name,
     NACTI.trace (NACTI.__getitem__ self idx w).2 =
       NACTI.trace w ++
         [NACTI.ImageOpen (path_join (NACTI.data_dir self) file_name)]).
Proof.
  unfold NACTI.__getitem__, NACTI.Image_open.
  cbv [mbind M_bind res_bind bind lift NACTI.emit modify gets mret M_ret ret raise].
  repeat (case_match; simplify_eq; cbn [fst snd NACTI.fs NACTI.trace] in * );
    (split; [reflexivity|]); first [by left | right; by eexists].
Qed.
End NACTI_more.

Section NACTI_indices.
Context {image : Type}.
Implicit Types (log : util.logger) (w : NACTI.world (image:=image))
  (self : NACTI.t (image:=image)).

(** Python's indexing from the end. *)
Lemma list_index_negative {A} (l : list A) (i : Z) :
  0 ≤ i < Z.of_nat (length l) →
  list_index l (i - Z.of_nat (length l)) = list_index l i.
Proof.
  intros Hi. unfold list_index.
  destruct (Z.ltb_spec (i - Z.of_nat (length l)) 0) as [_|]; [|lia].
  destruct (Z.ltb_spec i 0) as [|_]; [lia|].
  replace (i - Z.of_nat (length l) + Z.of_nat (length l)) with i by lia.
  done.
Qed.

Lemma list_index_out_of_range {A} (l : list A) (i : Z) :
  Z.of_nat (length l) ≤ i ∨ i < - Z.of_nat (length l) →
  list_index l i = Raise IndexError.
Proof.
  intros Hi. unfold list_index.
  destruct (Z.ltb_spec i 0) as [Hneg|Hpos].
  - destruct (Z.ltb_spec (i + Z.of_nat (length l)) 0) as [|Hge]; [done|].
    lia.
  - destruct (Z.ltb_spec i 0) as [|_]; [lia|].
    rewrite lookup_ge_None_2; [done|lia].
Qed.

(** X2.  When the metadata holds as many images as annotations, [n] of
    each, index [i - n] reads the same item as index [i], for
    [0 <= i < n]: negative indices count from the end. *)
Theorem getitem_negative_index self images annotations i w :
  NACTI.subscript (NACTI.metadata self) "images" = Ok (JArr images) →
  NACTI.subscript (NACTI.metadata self) "annotations" = Ok (JArr annotations) →
  length images = length annotations →
  0 ≤ i < Z.of_nat (length annotations) →
  NACTI.__getitem__ self (i - Z.of_nat (length annotations)) w
    = NACTI.__getitem__ self i w.
Proof.
  intros Himages Hanns Hlen Hi. unfold NACTI.__getitem__.
  cbv [mbind M_bind res_bind bind lift].
  rewrite Himages, Hanns. cbn [NACTI.subscript_int].
  rewrite <- Hlen at 1. rewrite !list_index_negative by lia. done.
Qed.

(** X3.  [__len__] counts the annotations, [__getitem__] indexes the images
    first: an index outside the images array (at or beyond its length, or
    below minus its length) raises [IndexError] and opens no file, also
    when it is below the length that [__len__] reports. *)
Theorem getitem_index_error self images annotations i w :
  NACTI.subscript (NACTI.metadata self) "images" = Ok (JArr images) →
  NACTI.subscript (NACTI.metadata self) "annotations" = Ok (JArr annotations) →
  Z.of_nat (length images) ≤ i ∨ i < - Z.of_nat (length images) →
  NACTI.__len__ self = Ok (length annotations) ∧
  NACTI.__getitem__ self i w = (Raise IndexError, w).
Proof.
  intros Himages Hanns Hi. split.
  - unfold NACTI.__len__. cbv [mbind res_bind]. by rewrite Hanns.
  - unfold NACTI.__getitem__. cbv [mbind M_bind res_bind bind lift].
    rewrite Himages. cbn [NACTI.subscript_int].
    by rewrite list_index_out_of_range.
Qed.
End NACTI_indices.

Section NACTI_construction.
Context {image : Type}.
Implicit Types (log : util.logger) (w : NACTI.world (image:=image))
  (self : NACTI.t (image:=image)).

(** X4.  The constructor opens one file, the metadata file, and changes
    nothing on disk; besides that [open] the trace gains at most the error
    line.  A missing metadata file is an [OSError], a file that is not JSON
    a [ValueError]; with the metadata loaded, the constructor returns
    exactly for the label types "binary" and "multi". *)
Theorem init_reads_metadata_only log data_dir label_type transform w :
  let path := path_join data_dir "nacti_metadata_tmp.json" in
  let run := NACTI.__init__ log data_dir label_type transform w in
  NACTI.fs run.2 = NACTI.fs w ∧
  (∃ logged,
     NACTI.trace run.2 = NACTI.trace w ++ NACTI.Open path :: logged ∧
     Forall (λ e, ∃ msg, e = NACTI.Log "error" msg) logged) ∧
  match NACTI.fs w !! path with
  | None => run.1 = Raise (OSError path)
  | Some (NACTI.JsonFile md) =>
      is_ok run.1 = bool_decide (label_type ∈ ["binary"; "multi"])
  | Some _ => run.1 = Raise ValueError
  end.
Proof.
  cbv zeta. rewrite init_run.
  destruct (NACTI.fs w !! _) as [[md| |]|];
    try (split; [done|]; split; [by exists []|done]).
  rewrite LABEL_TYPES_lookup.
  destruct (decide (label_type = "multi")) as [->|Hmulti];
    [|destruct (decide (label_type = "binary")) as [->|Hbinary]].
  - split; [done|]. split; [by exists []|].
    symmetry. apply bool_decide_eq_true_2. in_list.
  - split; [done|]. split; [by exists []|].
    symmetry. apply bool_decide_eq_true_2. in_list.
  - assert (bool_decide (label_type ∈ ["binary"; "multi"]) = false) as ->.
    { apply bool_decide_eq_false. intros Hin.
      repeat (apply elem_of_cons in Hin as [->|Hin]); try done.
      by apply elem_of_nil in Hin. }
    destruct (util.getattr log "error") as [[]|e].
    + split; [done|]. split; [|done]. cbn [NACTI.trace snd].
      eexists [_]. rewrite <- app_assoc. split; [done|].
      constructor; [by eexists|constructor].
    + split; [done|]. split; [by exists []|done].
Qed.

(** The binary table: every label is 0 or 1, and 0 belongs to the
    categories 16 and 68 only. *)
Lemma BINARY_labels :
  map_Forall (λ c v, (v = 0 ∨ v = 1) ∧ (v = 0 ↔ c = 16 ∨ c = 68)) NACTI.BINARY.
Proof.
  unfold NACTI.BINARY, dict_display. cbn [foldl fst snd].
  repeat (apply map_Forall_insert_2; [split; [lia|split; lia]|]).
  apply map_Forall_empty.
Qed.

(** An item that is returned carries the label looked up for the category
    id of its annotation. *)
Lemma getitem_returns_lookup self idx w img lbl w' :
  NACTI.__getitem__ self idx w = (Ok (img, lbl), w') →
  ∃ annotations annotation original_label,
    NACTI.subscript (NACTI.metadata self) "annotations" = Ok annotations ∧
    NACTI.subscript_int annotations idx = Ok annotation ∧
    NACTI.subscript annotation "category_id" = Ok original_label ∧
    NACTI.label_lookup (NACTI.label_map self) original_label = Ok lbl.
Proof.
  intros Hrun%getitem_returns_label. unfold NACTI.label_of in Hrun.
  cbv [mbind res_bind] in Hrun.
  destruct (NACTI.subscript (NACTI.metadata self) "annotations")
    as [annotations|] eqn:Hanns; [|done].
  destruct (NACTI.subscript_int annotations idx) as [annotation|] eqn:Hann; [|done].
  destruct (NACTI.subscript annotation "category_id") as [original|] eqn:Hcat; [|done].
  by exists annotations, annotation, original.
Qed.

(** X5.  Every item that an adapter built with "binary" returns has label
    0 or 1, and label 0 exactly when the category id of its annotation is
    16 or 68. *)
Theorem binary_labels log data_dir transform w0 self w1 idx w img lbl w' :
  NACTI.__init__ log data_dir "binary" transform w0 = (Ok self, w1) →
  NACTI.__getitem__ self idx w = (Ok (img, lbl), w') →
  (lbl = 0 ∨ lbl = 1) ∧
  ∃ annotations annotation original_label,
    NACTI.subscript (NACTI.metadata self) "annotations" = Ok annotations ∧
    NACTI.subscript_int annotations idx = Ok annotation ∧
    NACTI.subscript annotation "category_id" = Ok original_label ∧
    (lbl = 0 ↔ original_label = JNum 16 ∨ original_label = JNum 68).
Proof.
  intros Hinit Hitem.
  assert (NACTI.label_map self = NACTI.BINARY) as Hmap.
  { rewrite init_run, LABEL_TYPES_lookup in Hinit.
    repeat (case_match; simplify_eq); done. }
  destruct (getitem_returns_lookup _ _ _ _ _ _ Hitem)
    as (annotations & annotation & original & Hanns & Hann & Hcat & Hlookup).
  rewrite Hmap in Hlookup. unfold NACTI.label_lookup in Hlookup.
  assert (∀ z, NACTI.BINARY !! z = Some lbl →
               (lbl = 0 ∨ lbl = 1) ∧ (lbl = 0 ↔ z = 16 ∨ z = 68)) as Htable.
  { intros z Hz. exact (BINARY_labels z lbl Hz). }
  destruct original as [|b|z|s|l|d]; try done.
  - destruct (NACTI.BINARY !! Z.b2z b) as [v|] eqn:Hv; [|done].
    injection Hlookup as ->. destruct (Htable _ Hv) as [H01 Hzero].
    split; [done|]. exists annotations, annotation, (JBool b).
    split; [done|]. split; [done|]. split; [done|].
    split; [|by intros [|]]. intros H0. apply Hzero in H0. destruct b; cbn in H0; lia.
  - destruct (NACTI.BINARY !! z) as [v|] eqn:Hv; [|done].
    injection Hlookup as ->. destruct (Htable _ Hv) as [H01 Hzero].
    split; [done|]. exists annotations, annotation, (JNum z).
    split; [done|]. split; [done|]. split; [done|].
    rewrite Hzero. split; [intros [->| ->]; auto|intros [[= ->]|[= ->]]; auto].
Qed.
End NACTI_construction.

Section TNC_facts.
Context {sample : Type}.

(** X6.  [TNC] is a stub: [len()] of it raises [TypeError], since
    [__len__] returns [None], and an item access yields [None] for every
    index, whatever the transform returns; only an error of the transform,
    called on [None], comes through. *)
Theorem TNC_is_a_stub (self : TNC.t (sample:=sample)) (idx : Z) :
  len_of (TNC.__len__ self) = Raise TypeError ∧
  (TNC.__getitem__ self idx = Ok None ∨
   ∃ f e, TNC.transform self = Some f ∧ f None = Raise e ∧
          TNC.__getitem__ self idx = Raise e).
Proof.
  split; [done|]. unfold TNC.__getitem__. cbv [mbind res_bind mret res_ret].
  destruct (TNC.transform self) as [f|] eqn:Hf; [|by left].
  destruct (f None) as [r|e] eqn:Hr; [by left|]. right. by exists f, e.
Qed.
End TNC_facts.

Section NACTI_examples.
Import Toy.

(** X2 on the example directory: index -1 reads item 1. *)
Lemma getitem_negative_index_witness :
  NACTI.__getitem__ (nacti "binary") (1 - 2) disk
    = NACTI.__getitem__ (nacti "binary") 1 disk.
Proof.
  apply (getitem_negative_index (nacti "binary")
           [JObj (dict_display [("file_name", JStr "a.jpg")]);
            JObj (dict_display [("file_name", JStr "b.jpg")])]
           [JObj (dict_display [("category_id", JNum 1)]);
            JObj (dict_display [("category_id", JNum 16)])]
           1 disk).
  - reflexivity.
  - reflexivity.
  - reflexivity.
  - simpl. lia.
Defined.

(** X3 on the example directory: index 2 of two items. *)
Lemma getitem_index_error_witness :
  NACTI.__len__ (nacti "binary") = Ok 2%nat ∧
  NACTI.__getitem__ (nacti "binary") 2 disk = (Raise IndexError, disk).
Proof.
  apply (getitem_index_error (nacti "binary")
           [JObj (dict_display [("file_name", JStr "a.jpg")]);
            JObj (dict_display [("file_name", JStr "b.jpg")])]
           [JObj (dict_display [("category_id", JNum 1)]);
            JObj (dict_display [("category_id", JNum 16)])]
           2 disk).
  - reflexivity.
  - reflexivity.
  - left. simpl. lia.
Defined.

(** X5 on the example directory: item 1 has category 16 and label 0. *)
Lemma binary_labels_witness :
  (0 = 0 ∨ 0 = 1) ∧
  ∃ annotations annotation original_label,
    NACTI.subscript (NACTI.metadata (nacti "binary")) "annotations" = Ok annotations ∧
    NACTI.subscript_int annotations 1 = Ok annotation ∧
    NACTI.subscript annotation "category_id" = Ok original_label ∧
    (0 = 0 ↔ original_label = JNum 16 ∨ original_label = JNum 68).
Proof.
  apply (binary_labels logger "/data" None disk (nacti "binary")
           (NACTI.__init__ logger "/data" "binary" None disk).2
           1 disk 8%nat 0
           (NACTI.__getitem__ (nacti "binary") 1 disk).2).
  - apply run_eq. reflexivity.
  - apply run_eq. reflexivity.
Defined.
End NACTI_examples.

(** * What the methods of the engine leave untouched *)

Section Engine_frames.
Context `{Torch}.
Variable E : env.
Implicit Types (self : gmap string value) (w : world).

Lemma preserves_ret {S A} (f : world → S) (x : A) : preserves f (mret x : M world A).
Proof. done. Qed.

Lemma preserves_raise {S A} (f : world → S) e : preserves f (raise e : M world A).
Proof. done. Qed.

Lemma preserves_lift {S A} (f : world → S) (r : res A) : preserves f (lift r : M world A).
Proof. done. Qed.

Lemma preserves_gets {S A} (f : world → S) (g : world → A) : preserves f (gets g).
Proof. done. Qed.

Lemma preserves_bind {S A B} (f : world → S) (m : M world A) (k : A → M world B) :
  preserves f m → (∀ a, preserves f (k a)) → preserves f (x ← m; k x).
Proof.
  intros Hm Hk w. cbv [mbind M_bind bind]. specialize (Hm w).
  destruct (m w) as [[a|e] w1]; cbn [snd] in *; [|done].
  by rewrite Hk.
Qed.

Lemma preserves_for_fold {S A B} (f : world → S) (body : B → A → M world B) xs s :
  (∀ s x, preserves f (body s x)) → preserves f (for_fold xs body s).
Proof.
  intros Hbody. revert s. induction xs as [|x xs IH]; intros s; cbn [for_fold].
  - apply (preserves_ret f s).
  - apply (preserves_bind f (body s x)); [apply Hbody|apply IH].
Qed.

(** Proves that a computation of [lift], [gets], [mret] and loops of these
    leaves the world as it is. *)
Ltac pure_steps :=
  repeat first
    [ apply preserves_ret | apply preserves_raise | apply preserves_lift
    | apply preserves_gets
    | apply preserves_bind; [|intros ?]
    | apply preserves_for_fold; intros ? ?
    | progress cbv beta zeta
    | match goal with
      | |- preserves _ (match ?x with _ => _ end) => destruct x
      | |- preserves _ ((match ?x with _ => _ end) _) => destruct x
      end ].

Lemma preserves_run {A} (m : M world A) w : preserves (λ w, w) m → (m w).2 = w.
Proof. intros Hm. apply Hm. Qed.

(** One step of a computation that starts with an attribute read or with a
    call on the network. *)
Lemma run_bind_lift {A B} (r : res A) (k : A → M world B) w :
  (x ← lift r; k x) w = match r with Ok a => k a w | Raise e => (Raise e, w) end.
Proof. by destruct r. Qed.

Lemma run_bind_update_model {B} f (k : () → M world B) w :
  (x ← update_model f; k x) w = k () (World (f (model w)) (drawn w) (trace w)).
Proof. done. Qed.

(** X7.  A validation pass changes nothing but the mode of the network: on
    every engine object, and whether it returns or raises, [_val] leaves the
    world as it was or as [model.eval()] alone makes it: no optimizer step,
    no log line, no file. *)
Theorem val_changes_mode_only self w :
  (Engine._val self w).2 = w ∨
  (Engine._val self w).2 = World (eval_mode (model w)) (drawn w) (trace w).
Proof.
  unfold Engine._val. rewrite run_bind_lift.
  destruct (getattr self "model") as [v|e]; [|by left]. right.
  rewrite run_bind_update_model. apply preserves_run. pure_steps.
Qed.

Lemma emits_quiet {A} (P : event → Prop) (m : M world A) :
  (∀ w, trace (m w).2 = trace w) → emits P m.
Proof. intros Hm w. exists []. by rewrite Hm, app_nil_r. Qed.

Lemma emits_ret {A} P (x : A) : emits P (mret x : M world A).
Proof. by apply emits_quiet. Qed.

Lemma emits_raise {A} P e : emits P (raise e : M world A).
Proof. by apply emits_quiet. Qed.

Lemma emits_lift {A} P (r : res A) : emits P (lift r : M world A).
Proof. by apply emits_quiet. Qed.

Lemma emits_gets {A} P (f : world → A) : emits P (gets f).
Proof. by apply emits_quiet. Qed.

Lemma emits_update_model P f : emits P (update_model f).
Proof. by apply emits_quiet. Qed.

Lemma emits_bind {A B} P (m : M world A) (k : A → M world B) :
  emits P m → (∀ a, emits P (k a)) → emits P (x ← m; k x).
Proof.
  intros Hm Hk w. cbv [mbind M_bind bind].
  destruct (Hm w) as (new1 & Ht1 & HP1).
  destruct (m w) as [[a|e] w1]; cbn [snd] in *.
  - destruct (Hk a w1) as (new2 & Ht2 & HP2).
    exists (new1 ++ new2). rewrite Ht2, Ht1, <- app_assoc. split; [done|].
    by apply Forall_app.
  - by exists new1.
Qed.

Lemma emits_emit (P : event → Prop) e : P e → emits P (emit e).
Proof. intros He w. exists [e]. split; [done|]. by constructor. Qed.

Lemma emits_log (P : event → Prop) level fmt args :
  P (Log level fmt args) → emits P (log_call E level fmt args).
Proof.
  intros HP. unfold log_call. apply emits_bind; [apply emits_lift|].
  intros _. by apply emits_emit.
Qed.

Lemma emits_for_fold {A S} P (body : S → A → M world S) xs s :
  (∀ s x, emits P (body s x)) → emits P (for_fold xs body s).
Proof.
  intros Hbody. revert s. induction xs as [|x xs IH]; intros s; cbn [for_fold].
  - apply (emits_ret P s).
  - apply (emits_bind P (body s x)); [apply Hbody|apply IH].
Qed.

Lemma emits_lift_Ok {A B} P (a : A) (k : A → M world B) :
  emits P (k a) → emits P (x ← lift (Ok a); k x).
Proof. intros Hk w. apply Hk. Qed.

Lemma emits_lift_Raise {A B} P e (k : A → M world B) :
  emits P (x ← lift (Raise e); k x).
Proof. by apply emits_quiet. Qed.

(** Proves [emits P] for a computation whose log lines satisfy [P] by
    computation and which writes nothing else. *)
Ltac logs_only :=
  repeat first
    [ apply emits_ret | apply emits_raise | apply emits_lift
    | apply emits_gets | apply emits_update_model
    | apply emits_log; exact I
    | apply emits_bind; [|intros ?]
    | apply emits_for_fold; intros ? ?
    | progress cbv beta zeta
    | match goal with
      | |- emits _ (match ?x with _ => _ end) => destruct x
      | |- emits _ ((match ?x with _ => _ end) _) => destruct x
      end ].

Lemma save_model_emits self train_config save_dir k :
  get train_config "save_dir" (VStr "checkpoints") = Ok save_dir →
  emits (training_event E self train_config) (Engine._save_model E self save_dir k).
Proof.
  intros Hdir. unfold Engine._save_model, getattr.
  destruct (self !! "model_name") as [model_name|] eqn:Hname;
    [apply emits_lift_Ok|apply emits_lift_Raise].
  destruct (self !! "tag") as [tag|] eqn:Htag;
    [apply emits_lift_Ok|apply emits_lift_Raise].
  destruct (save_path E save_dir model_name tag) as [path|e] eqn:Hpath;
    [apply emits_lift_Ok|apply emits_lift_Raise].
  apply emits_bind; [apply emits_lift|intros _].
  apply emits_bind; [apply emits_lift|intros _].
  apply emits_bind; [apply emits_gets|intros m].
  apply emits_emit. by exists save_dir, model_name, tag.
Qed.

(** X8.  Whatever [_train] appends to the trace, on every engine object
    and whether it returns or raises, is a log line or a checkpoint at the
    path that [save_path] gives for the configured 'save_dir' (default
    'checkpoints'), [self.model_name] and [self.tag].  The epoch is not
    among the arguments of [save_path]: the checkpoints of all epochs of a
    run are written under the same three arguments.  Training exports no
    ROC data. *)
Theorem train_checkpoints_one_path self train_config w :
  ∃ new,
    trace (Engine._train E self train_config w).2 = trace w ++ new ∧
    Forall (training_event E self train_config) new.
Proof.
  revert w. change (emits (training_event E self train_config)
                      (Engine._train E self train_config)).
  unfold Engine._train.
  destruct (get train_config "save_dir" (VStr "checkpoints")) as [save_dir|e] eqn:Hdir;
    [apply emits_lift_Ok|apply emits_lift_Raise].
  apply emits_bind; [apply emits_lift|intros [start_epoch num_epochs]].
  apply emits_bind; [by apply emits_log|intros _].
  apply emits_bind; [|intros ?; apply emits_ret].
  apply emits_for_fold. intros [val_accuracies best_acc] epoch.
  unfold Engine.epoch_body.
  apply emits_bind; [unfold Engine._train_one_epoch; logs_only|intros train_loss].
  apply emits_bind; [by apply emits_log|intros _].
  apply emits_bind; [unfold Engine._val; logs_only|intros [val_loss val_acc]].
  apply emits_bind.
  - destruct (fgt val_acc best_acc); [|apply emits_ret].
    apply emits_bind; [by apply save_model_emits|intros ?; apply emits_ret].
  - intros best. apply emits_bind; [by apply emits_log|intros _; apply emits_ret].
Qed.

(** X9.  What [eval()] can do to the world, on every engine object and
    whether it returns or raises: put the network in evaluation mode, draw
    one batch, and export one ROC record.  It takes no optimizer step,
    writes no checkpoint and logs nothing, neither the loss nor the
    accuracy that [_eval] returns. *)
Theorem eval_effects self w :
  let w' := (Engine.eval self w).2 in
  (model w' = model w ∨ model w' = eval_mode (model w)) ∧
  (drawn w' = drawn w ∨ drawn w' = S (drawn w)) ∧
  (trace w' = trace w ∨
   ∃ probabilities labels, trace w' = trace w ++ [SaveRoc probabilities labels]).
Proof.
  cbv zeta. unfold Engine.eval, Engine._eval, next.
  cbv [mbind M_bind bind lift gets update_model modify emit mret M_ret ret raise].
  repeat (case_match; simplify_eq; cbn [fst snd model drawn trace] in * );
    (split; [auto|split; [auto|eauto]]).
Qed.

End Engine_frames.

(** * Edge cases of the engine's methods *)

Section Engine_edges.
Context `{Torch}.
Variable E : env.
Implicit Types (self : gmap string value) (w : world).

(** The epoch bounds of a run without a checkpoint. *)
Lemma epoch_bounds_fresh self d n :
  self !! "checkpoint" = Some VNone →
  default (VInt 50) (d !! "num_epochs") = VInt n →
  Engine.epoch_bounds self (VDict d) = Ok (0, if n <? 0 then 50 else n).
Proof.
  intros Hck Hn. unfold Engine.epoch_bounds, getattr. run.
  rewrite Hck. cbn [is_None subscript get].
  change (match d !! "num_epochs" with Some x => x | None => VInt 50 end)
    with (default (VInt 50) (d !! "num_epochs")).
  rewrite Hn. done.
Qed.

(** X10.  A run without a checkpoint ([self.checkpoint] is [None]) on a
    ready engine starts at epoch 0: with [num_epochs] configured as [n]
    (50 when absent) it trains and validates the epochs [0 .. n - 1], no
    epoch at all when [n = 0], and the 50 epochs [0 .. 49] when [n] is
    negative. *)
Theorem fresh_run_epochs self tl vl config d n w :
  ready E self tl vl →
  self !! "config" = Some config →
  subscript config "train" = Ok (VDict d) →
  self !! "checkpoint" = Some VNone →
  default (VInt 50) (d !! "num_epochs") = VInt n →
  ∃ w' new,
    Engine.train E self w = (Ok (), w') ∧
    trace w' = trace w ++ new ∧
    trained_epochs new = (if n <? 0 then seqZ 0 50 else seqZ 0 n) ∧
    (validated new).*1 = trained_epochs new.
Proof.
  intros Hready Hcfg Htrain Hck Hn.
  pose proof (epoch_bounds_fresh self d n Hck Hn) as Hbounds.
  destruct (train_run E self tl vl d _ _ w Hready Hbounds)
    as (accs & w' & new & Hrun & _ & Ht & Htr & Hv & Hlen & _).
  exists w', new. rewrite (train_unfold E self config d) by done.
  split; [done|]. split; [done|]. split.
  - rewrite Htr. unfold range. destruct (n <? 0); f_equal; lia.
  - rewrite Hv, Htr. by apply fst_zip; rewrite Hlen.
Qed.

(** X11.  Resuming from a checkpoint that has no 'epoch' entry: [train()]
    raises the [KeyError] of [self.checkpoint['epoch']] before anything is
    logged or trained. *)
Theorem resume_without_epoch self config train_config ck w :
  self !! "config" = Some config →
  subscript config "train" = Ok train_config →
  is_ok (get train_config "save_dir" (VStr "checkpoints")) = true →
  self !! "checkpoint" = Some (VDict ck) →
  ck !! "epoch" = None →
  Engine.train E self w = (Raise (KeyError (KStr "epoch")), w).
Proof.
  intros Hcfg Htrain Hdir Hck Hepoch.
  unfold Engine.train, Engine._train, Engine.epoch_bounds, getattr. run.
  rewrite Hcfg, Htrain.
  destruct (get train_config "save_dir" (VStr "checkpoints")); [|done].
  rewrite Hck. cbn [is_None subscript]. by rewrite Hepoch.
Qed.

(** X12.  A validation split without batches: [num_corrects] is still the
    int 0 after the loop.  With an empty dataset the loss division raises
    [ZeroDivisionError]; otherwise [num_corrects.double()] raises
    [AttributeError].  Either way the network is left in evaluation
    mode. *)
Theorem val_empty_split self vl w :
  Engine.split self "val" = Ok vl →
  is_Some (self !! "model") →
  batches vl = [] →
  Engine._val self w =
    (Raise (if decide (dataset_len vl = 0%nat) then ZeroDivisionError
            else AttributeError "double"),
     World (eval_mode (model w)) (drawn w) (trace w)).
Proof.
  intros Hsplit [vm Hm] Hbs. unfold Engine._val, getattr. run.
  rewrite Hm, Hsplit, Hbs. cbn [for_fold]. run. unfold py_div.
  destruct (decide (dataset_len vl = 0%nat)); done.
Qed.

(** X13.  When the evaluation iterator has no batch left, [_eval] raises
    the [StopIteration] of [.next()]: the network is in evaluation mode
    by then, nothing is drawn and nothing written; [eval()] passes the
    exception on. *)
Theorem eval_exhausted self el config eval_config w :
  self !! "config" = Some config →
  subscript config "eval" = Ok eval_config →
  is_ok (get eval_config "use_roc" (VBool false)) = true →
  is_Some (self !! "model") →
  Engine.split self "eval" = Ok el →
  batches el !! drawn w = None →
  Engine._eval self eval_config w
    = (Raise StopIteration, World (eval_mode (model w)) (drawn w) (trace w)) ∧
  Engine.eval self w
    = (Raise StopIteration, World (eval_mode (model w)) (drawn w) (trace w)).
Proof.
  intros Hcfg Heval Hroc [vm Hm] Hsplit Hnone.
  assert (Engine._eval self eval_config w
          = (Raise StopIteration, World (eval_mode (model w)) (drawn w) (trace w)))
    as Hrun.
  { unfold Engine._eval, next, getattr. run.
    destruct (get eval_config "use_roc" (VBool false)); [|done].
    rewrite Hm, Hsplit. cbn [model drawn trace]. by rewrite Hnone. }
  split; [done|].
  unfold Engine.eval, getattr. run. by rewrite Hcfg, Heval, Hrun.
Qed.

(** X14.  The ROC export of an evaluation pass: [save_roc] is called,
    once, exactly when there is at most one class and 'use_roc' of the
    configuration (default [False]) is true, with the sigmoid of the
    outputs on the batch drawn and its labels.  It precedes the division
    by the dataset length, so it happens also when that raises. *)
Theorem eval_roc_export self el d x y multi w :
  Engine.split self "eval" = Ok el →
  (∀ a, a ∈ ["model"; "device"; "criterion"] → is_Some (self !! a)) →
  Engine.more_than_one_class self = Ok multi →
  batches el !! drawn w = Some (x, y) →
  let use_roc := default (VBool false) (d !! "use_roc") in
  let probabilities := sigmoid (call (eval_mode (model w)) x) in
  trace (Engine._eval self (VDict d) w).2 =
    trace w ++ (if negb multi && truthy use_roc
                then [SaveRoc probabilities (unsqueeze_float y)] else []).
Proof.
  intros Hsplit Hattrs Hmulti Hb use_roc probabilities.
  destruct (getattr_Some self "model") as (vm & Hm & _); [apply Hattrs; in_list|].
  destruct (getattr_Some self "device") as (vd & Hd & _); [apply Hattrs; in_list|].
  destruct (getattr_Some self "criterion") as (vc & Hc & _); [apply Hattrs; in_list|].
  unfold Engine._eval, next. run. cbn [get]. rewrite Hm, Hsplit. cbn [model drawn trace].
  rewrite Hb, Hd, Hc, Hmulti. unfold py_div.
  change (match d !! "use_roc" with Some x => x | None => VBool false end)
    with use_roc.
  destruct multi; cbn [negb andb].
  - destruct (decide (dataset_len el = 0%nat)); cbn [snd trace];
      by rewrite app_nil_r.
  - destruct (truthy use_roc); cbn [model drawn trace];
      destruct (decide (dataset_len el = 0%nat)); cbn [snd trace];
      by rewrite ?app_nil_r.
Qed.

End Engine_edges.

(** * The best checkpoint *)

Section Best_checkpoint.
Context `{Torch} `{!FloatOrder}.
Variable E : env.
Implicit Types (self : gmap string value) (w : world).

Lemma improvements_nil best l j b :
  improvements best l = [] → (j, b) ∈ l → fgt b best = false.
Proof.
  induction l as [|[k a] l IH]; cbn [improvements]; intros Hnil Hin.
  - by apply elem_of_nil in Hin.
  - destruct (fgt a best) eqn:Hgt; [done|].
    apply elem_of_cons in Hin as [[= -> ->]|Hin]; [done|by apply IH].
Qed.

(** The last improvement of a run of accuracies is not exceeded by any
    accuracy of the run. *)
Lemma last_improvement l best k :
  last (improvements best l) = Some k →
  ∃ a, (k, a) ∈ l ∧ fgt a best = true ∧ ∀ j b, (j, b) ∈ l → fgt b a = false.
Proof.
  revert best. induction l as [|[k0 a0] l IH]; intros best; cbn [improvements].
  - done.
  - destruct (fgt a0 best) eqn:Hgt.
    + rewrite last_cons. destruct (last (improvements a0 l)) as [k'|] eqn:Hlast.
      * intros [= ->]. destruct (IH a0 Hlast) as (a & Hin & Ha & Hbest).
        exists a. split; [by apply elem_of_cons; right|].
        split; [by apply (fgt_trans _ a0)|].
        intros j b [[= -> ->]|Hjb]%elem_of_cons; [by apply fgt_asym|by eapply Hbest].
      * intros [= ->]. exists a0. split; [apply list_elem_of_here|]. split; [done|].
        apply last_None in Hlast.
        intros j b [[= -> ->]|Hjb]%elem_of_cons.
        -- destruct (fgt a0 a0) eqn:Hbb; [|done]. by rewrite (fgt_asym _ _ Hbb) in Hbb.
        -- by eapply improvements_nil.
    + intros Hlast. destruct (IH best Hlast) as (a & Hin & Ha & Hbest).
      exists a. split; [by apply elem_of_cons; right|]. split; [done|].
      intros j b [[= -> ->]|Hjb]%elem_of_cons; [|by eapply Hbest].
      destruct (fgt a0 a) eqn:Hba; [|done].
      by rewrite (fgt_trans _ _ _ Hba Ha) in Hgt.
Qed.

(** X15.  With a strict weak order on the accuracies, the last checkpoint
    that a run on a ready engine writes is that of an epoch whose
    validation accuracy exceeds 0.0 and is exceeded by no epoch of the run;
    when the run writes no checkpoint, no epoch's accuracy exceeded 0.0. *)
Theorem last_checkpoint_is_best self tl vl config d start_epoch num_epochs w :
  ready E self tl vl →
  self !! "config" = Some config →
  subscript config "train" = Ok (VDict d) →
  Engine.epoch_bounds self (VDict d) = Ok (start_epoch, num_epochs) →
  ∃ w' new,
    Engine.train E self w = (Ok (), w') ∧
    trace w' = trace w ++ new ∧
    match last (saved_epochs new) with
    | Some k =>
        ∃ a, (k, a) ∈ validated new ∧ fgt a f0 = true ∧
             Forall (λ jb, fgt jb.2 a = false) (validated new)
    | None => Forall (λ jb, fgt jb.2 f0 = false) (validated new)
    end.
Proof.
  intros Hready Hcfg Htrain Hbounds.
  destruct (train_run E self tl vl d _ _ w Hready Hbounds)
    as (accs & w' & new & Hrun & _ & Ht & _ & _ & _ & Hs).
  exists w', new. rewrite (train_unfold E self config d) by done.
  split; [done|]. split; [done|]. rewrite Hs.
  destruct (last (improvements f0 (validated new))) as [k|] eqn:Hlast.
  - destruct (last_improvement _ _ _ Hlast) as (a & Hin & Ha & Hbest).
    exists a. split; [done|]. split; [done|].
    apply Forall_forall. intros [j b] Hjb. by eapply Hbest.
  - apply last_None in Hlast. apply Forall_forall. intros [j b] Hjb.
    by eapply improvements_nil.
Qed.

End Best_checkpoint.

(** * The passes in detail *)

Section Engine_details.
Context `{Torch}.
Variable E : env.
Implicit Types (self : gmap string value) (w : world) (bs : list (tensor * tensor)).

Lemma train_losses_length inc m bs : length (train_losses inc m bs) = length bs.
Proof.
  revert m. induction bs as [|[x y] bs IH]; intros m; cbn; [done|]. by rewrite IH.
Qed.

(** The lines of an enumerated loop are those of [imap]. *)
Lemma zip_with_imap {A B C} (F : nat → B → C) (g : nat → nat) (l : list A) (k : list B) :
  length k = length l →
  zip_with (λ ib y, F ib.1 y) (imap (λ i b, (g i, b)) l) k = imap (λ i y, F (g i) y) k.
Proof.
  revert g k. induction l as [|x l IH]; intros g [|y k] Hlen; try done.
  cbn. f_equal. apply (IH (g ∘ S)). by injection Hlen.
Qed.

(** The loop of the training pass with its log lines. *)
Lemma train_loop_lines inc nb (body : float → nat * (tensor * tensor) → M world float) :
  (∀ total i x y w,
     body total (i, (x, y)) w =
       (Ok (fadd total (fmul (batch_loss inc (model w) x (unsqueeze_float y))
                             (of_nat (size0 x)))),
        World (backward_step inc (model w) x (unsqueeze_float y)) (drawn w)
          (trace w ++ [Log "info" "Train batch {}/{} - loss: {:4f}"
             [AInt (Z.of_nat i); AInt nb;
              AFloat (batch_loss inc (model w) x (unsqueeze_float y))]]))) →
  ∀ (ibs : list (nat * (tensor * tensor))) total w,
    for_fold ibs body total w =
      (Ok (foldl (λ total ls, fadd total (fmul ls.1 (of_nat ls.2))) total
             (zip (train_losses inc (model w) ibs.*2) (sizes ibs.*2))),
       World (trained inc (model w) ibs.*2) (drawn w)
         (trace w ++
          zip_with (λ ib loss, Log "info" "Train batch {}/{} - loss: {:4f}"
                                 [AInt (Z.of_nat ib.1); AInt nb; AFloat loss])
            ibs (train_losses inc (model w) ibs.*2))).
Proof.
  intros Hbody ibs. induction ibs as [|[i [x y]] ibs IH]; intros total w.
  - cbn. rewrite app_nil_r. by destruct w.
  - cbn [for_fold]. unfold bind at 1. rewrite Hbody, IH. cbn [model drawn trace].
    cbn. by rewrite <- app_assoc.
Qed.

(** X16.  The training pass on an engine that has its training split, the
    attributes the pass reads and a logger with [info]: one optimizer step
    per batch, in batch order, on the network in training mode; one log
    line per batch, numbered from 0, with the number of batches and the
    loss of the batch before its step; and as result the sum of
    loss × batch size over the dataset length, a [ZeroDivisionError] when
    the dataset is empty, raised after the steps are taken. *)
Theorem train_pass_lines self tl vi w :
  Engine.split self "train" = Ok tl →
  (∀ a, a ∈ ["model"; "device"; "optimizer"; "criterion"] → is_Some (self !! a)) →
  self !! "is_inception" = Some vi →
  "info" ∈ util.methods (log E) →
  let losses := train_losses (truthy vi) (train_mode (model w)) (batches tl) in
  Engine._train_one_epoch E self w =
    (py_div (weighted_sum losses (sizes (batches tl))) (dataset_len tl),
     World (trained (truthy vi) (train_mode (model w)) (batches tl)) (drawn w)
       (trace w ++ batch_lines losses)).
Proof.
  intros Hsplit Hattrs Hinc Hinfo losses.
  destruct (getattr_Some self "model") as (vm & Hm & _); [apply Hattrs; in_list|].
  destruct (getattr_Some self "device") as (vd & Hd & _); [apply Hattrs; in_list|].
  destruct (getattr_Some self "optimizer") as (vo & Ho & _); [apply Hattrs; in_list|].
  destruct (getattr_Some self "criterion") as (vc & Hc & _); [apply Hattrs; in_list|].
  assert (getattr self "is_inception" = Ok vi) as Hi by (unfold getattr; by rewrite Hinc).
  unfold Engine._train_one_epoch. run. rewrite Hsplit, Hm, Hd, Ho, Hi, Hc.
  match goal with
  | |- context [for_fold ?l ?body ?s ?w'] =>
      rewrite (train_loop_lines (truthy vi) (Z.of_nat (length (batches tl))) body)
  end.
  - cbn [model drawn trace]. rewrite imap_pair_snd. fold losses.
    rewrite (zip_with_imap
               (λ i loss, Log "info" "Train batch {}/{} - loss: {:4f}"
                            [AInt (Z.of_nat i); AInt (Z.of_nat (length (batches tl)));
                             AFloat loss]) (λ i, i))
      by apply train_losses_length.
    unfold batch_lines, weighted_sum.
    by rewrite (train_losses_length _ _ (batches tl) : length losses = _).
  - intros total i x y w'. cbn [model drawn trace].
    rewrite log_call_run by done. cbn [model drawn trace].
    unfold batch_loss. destruct (truthy vi); [destruct (call_aux _ _)|]; done.
Qed.

Lemma saved_epochs_nil_Forall (P : event → Prop) tr :
  (∀ level fmt args, P (Log level fmt args)) →
  (∀ probabilities labels, P (SaveRoc probabilities labels)) →
  saved_epochs tr = [] → Forall P tr.
Proof.
  intros Hlog Hroc. induction tr as [|e tr IH]; [constructor|].
  destruct e; cbn; intros Hnil; try done; constructor; auto.
Qed.

(** X17.  One epoch of the loop of [_train] on a ready engine.  The
    accuracy that decides about the checkpoint is that of the network as
    the epoch's training pass leaves it, put in evaluation mode: correct
    predictions on the validation split over its dataset length.  The
    epoch writes nothing but a checkpoint of its own number holding that
    network, and leaves that network behind. *)
Theorem epoch_effect self tl vl vi multi save_dir accs best k w :
  ready E self tl vl →
  self !! "is_inception" = Some vi →
  Engine.more_than_one_class self = Ok multi →
  let m' := eval_mode (trained (truthy vi) (train_mode (model w)) (batches tl)) in
  let a := fdiv (of_nat (corrects multi m' (batches vl))) (of_nat (dataset_len vl)) in
  ∃ w' new,
    Engine.epoch_body E self save_dir (accs, best) k w
      = (Ok (accs ++ [a], if fgt a best then a else best), w') ∧
    model w' = m' ∧
    trace w' = trace w ++ new ∧
    saved_epochs new = (if fgt a best then [k] else []) ∧
    Forall (λ e, match e with Save _ j m => j = k ∧ m = m' | _ => True end) new.
Proof.
  intros Hready Hvi Hmulti m' a.
  destruct (train_pass_run E self tl vi w) as (logs & Hsilent & Htrain).
  { apply Hready. }
  { sub_attrs (ready_attrs _ _ _ _ Hready). }
  { done. }
  { apply Hready. }
  destruct Hsilent as (Hs1 & Hs2 & Hs3).
  unfold Engine.epoch_body. run. rewrite Htrain.
  unfold py_div. rewrite decide_False by apply Hready.
  rewrite log_call_run by apply Hready. cbn [model drawn trace].
  erewrite val_pass_run; [|apply Hready| |exact Hmulti|apply Hready|apply Hready];
    last sub_attrs (ready_attrs _ _ _ _ Hready).
  cbn [model drawn trace]. fold m'. fold a.
  assert (Forall (λ e, match e with Save _ j m => j = k ∧ m = m' | _ => True end) logs)
    as Hlogs by (by apply saved_epochs_nil_Forall).
  destruct (fgt a best) eqn:Hgt.
  - match goal with
    | |- context [Engine._save_model E self save_dir k ?w1] =>
        destruct (save_model_run E self save_dir k w1) as (path & ->)
    end.
    { sub_attrs (ready_attrs _ _ _ _ Hready). }
    { apply Hready. }
    rewrite log_call_run by apply Hready. cbn [model drawn trace].
    eexists _, _. split; [reflexivity|]. cbn [model drawn trace].
    split; [done|]. split; [by rewrite <- !app_assoc|].
    split; [by rewrite !saved_epochs_app, Hs1|].
    repeat (apply Forall_app; split); try done; by repeat constructor.
  - rewrite log_call_run by apply Hready. cbn [model drawn trace].
    eexists _, _. split; [reflexivity|]. cbn [model drawn trace].
    split; [done|]. split; [by rewrite <- !app_assoc|].
    split; [by rewrite !saved_epochs_app, Hs1|].
    repeat (apply Forall_app; split); try done; by repeat constructor.
Qed.

End Engine_details.

Section Engine_construction.
Context `{Torch}.
Variable E : env.
Implicit Types (self : gmap string value) (w : world).

(** X18.  What the constructor takes from [misc], the second result of
    [model_builder.build]: 'model_name' and 'num_classes' must be there and
    become the attributes of these names; 'checkpoint' and 'is_inception'
    are optional and default to [None] and [False].  The configuration
    must hold 'data', 'model' and 'train'. *)
Theorem init_misc_attributes config tag w self w' :
  Engine.__init__ E config tag w = (Ok self, w') →
  ∃ cfg model_cfg m misc,
    load_config E config = Ok cfg ∧
    is_ok (subscript cfg "data") = true ∧
    is_ok (subscript cfg "train") = true ∧
    subscript cfg "model" = Ok model_cfg ∧
    model_builder_build E model_cfg = Ok (m, VDict misc) ∧
    is_Some (misc !! "model_name") ∧
    is_Some (misc !! "num_classes") ∧
    self !! "model_name" = misc !! "model_name" ∧
    self !! "num_classes" = misc !! "num_classes" ∧
    self !! "checkpoint" = Some (default VNone (misc !! "checkpoint")) ∧
    self !! "is_inception" = Some (default (VBool false) (misc !! "is_inception")).
Proof.
  unfold Engine.__init__. intros Hrun.
  apply bind_Ok_inv in Hrun as (self0 & w0 & Hbase & Hrun).
  apply base_init_self in Hbase as (cfg & Hcfg & ->).
  invert_run Hrun. subst.
  rewrite !getattr_setattr_ne, getattr_setattr_eq in * by done.
  simplify_eq.
  repeat match goal with
         | Hm : subscript ?v _ = Ok _ |- _ =>
             is_var v; destruct v; try discriminate Hm
         | Hm : get ?v _ _ = Ok _ |- _ =>
             is_var v; destruct v; try discriminate Hm
         end.
  cbn [subscript get] in *.
  repeat match goal with
         | Hm : match ?d !! ?k with _ => _ end = Ok _ |- _ =>
             let Hk := fresh "Hk" in
             destruct (d !! k) eqn:Hk; [|discriminate Hm]
         end.
  simplify_eq. unfold setattr.
  eexists _, _, _, _. split; [done|]. cbn [subscript].
  repeat match goal with Hk : _ !! _ = Some _ |- _ => rewrite Hk end.
  split; [done|]. split; [done|]. split; [done|]. split; [done|].
  split; [done|]. split; [done|].
  by simplify_map_eq.
Qed.

End Engine_construction.

(** * The further properties on concrete runs *)

Section Engine_examples.
Import Toy ToyEdges.

(** X10 on the fresh run of three epochs. *)
Lemma fresh_run_epochs_witness :
  ∃ w' new,
    Engine.train fresh (patched fresh) w0 = (Ok (), w') ∧
    trace w' = trace w0 ++ new ∧
    trained_epochs new = seqZ 0 3 ∧
    (validated new).*1 = trained_epochs new.
Proof.
  apply (fresh_run_epochs fresh (patched fresh) train_split (val_split [1; 3])
           (config 3) (dict_display [("num_epochs", VInt 3)]) 3 w0).
  - exact fresh_ready.
  - reflexivity.
  - reflexivity.
  - reflexivity.
  - reflexivity.
Defined.

(** X11 on the engine whose checkpoint is the empty dict. *)
Lemma resume_without_epoch_witness :
  Engine.train fresh no_epoch w0 = (Raise (KeyError (KStr "epoch")), w0).
Proof.
  apply (resume_without_epoch fresh no_epoch (config 3)
           (VDict (dict_display [("num_epochs", VInt 3)])) ∅ w0).
  - reflexivity.
  - reflexivity.
  - reflexivity.
  - reflexivity.
  - reflexivity.
Defined.

(** X12 on a validation split of two samples and no batch. *)
Lemma val_empty_split_witness :
  Engine._val empty_val w0 =
    (Raise (AttributeError "double"),
     World (eval_mode (model w0)) (drawn w0) (trace w0)).
Proof.
  apply (val_empty_split empty_val (Loader [] 2) w0).
  - reflexivity.
  - eexists. reflexivity.
  - reflexivity.
Defined.

(** X13 after both batches of the evaluation split are drawn. *)
Lemma eval_exhausted_witness :
  Engine._eval (patched fresh) (VDict ∅) exhausted
    = (Raise StopIteration,
       World (eval_mode (model exhausted)) (drawn exhausted) (trace exhausted)) ∧
  Engine.eval (patched fresh) exhausted
    = (Raise StopIteration,
       World (eval_mode (model exhausted)) (drawn exhausted) (trace exhausted)).
Proof.
  apply (eval_exhausted (patched fresh) eval_split (config 3) (VDict ∅) exhausted).
  - reflexivity.
  - reflexivity.
  - reflexivity.
  - eexists. reflexivity.
  - reflexivity.
  - reflexivity.
Defined.

(** X14 on the engine with one class and 'use_roc' set: one export. *)
Lemma eval_roc_export_witness :
  trace (Engine._eval binary (VDict roc_config) w0).2 =
    trace w0 ++ [SaveRoc (sigmoid (call (eval_mode (model w0)) inputs))
                   (unsqueeze_float [0; 1])].
Proof.
  apply (eval_roc_export binary eval_split roc_config inputs [0; 1] false w0).
  - reflexivity.
  - intros a Ha. repeat (apply elem_of_cons in Ha as [->|Ha]);
      [eexists; reflexivity..|by apply elem_of_nil in Ha].
  - reflexivity.
  - reflexivity.
Defined.

(** X15 on the fresh run of three epochs. *)
Lemma last_checkpoint_is_best_witness :
  ∃ w' new,
    Engine.train fresh (patched fresh) w0 = (Ok (), w') ∧
    trace w' = trace w0 ++ new ∧
    match last (saved_epochs new) with
    | Some k =>
        ∃ a, (k, a) ∈ validated new ∧ fgt a f0 = true ∧
             Forall (λ jb, fgt jb.2 a = false) (validated new)
    | None => Forall (λ jb, fgt jb.2 f0 = false) (validated new)
    end.
Proof.
  apply (@last_checkpoint_is_best torch toy_order fresh (patched fresh)
           train_split (val_split [1; 3])
           (config 3) (dict_display [("num_epochs", VInt 3)]) 0 3 w0).
  - exact fresh_ready.
  - reflexivity.
  - reflexivity.
  - reflexivity.
Defined.

(** X16 on the training split of the fresh run. *)
Lemma train_pass_lines_witness :
  let losses := train_losses false (train_mode (model w0)) (batches train_split) in
  Engine._train_one_epoch fresh (patched fresh) w0 =
    (py_div (weighted_sum losses (sizes (batches train_split))) (dataset_len train_split),
     World (trained false (train_mode (model w0)) (batches train_split)) (drawn w0)
       (trace w0 ++ batch_lines losses)).
Proof.
  apply (train_pass_lines fresh (patched fresh) train_split (VBool false) w0).
  - reflexivity.
  - intros a Ha. repeat (apply elem_of_cons in Ha as [->|Ha]);
      [eexists; reflexivity..|by apply elem_of_nil in Ha].
  - reflexivity.
  - exact toy_logger_info.
Defined.

(** X17 on epoch 0 of the fresh run. *)
Lemma epoch_effect_witness :
  let m' := eval_mode (trained false (train_mode (model w0)) (batches train_split)) in
  let a := fdiv (of_nat (corrects true m' (batches (val_split [1; 3]))))
                (of_nat (dataset_len (val_split [1; 3]))) in
  ∃ w' new,
    Engine.epoch_body fresh (patched fresh) (VStr "checkpoints") ([], f0) 0 w0
      = (Ok ([] ++ [a], if fgt a f0 then a else f0), w') ∧
    model w' = m' ∧
    trace w' = trace w0 ++ new ∧
    saved_epochs new = (if fgt a f0 then [0] else []) ∧
    Forall (λ e, match e with Save _ j m => j = 0 ∧ m = m' | _ => True end) new.
Proof.
  apply (epoch_effect fresh (patched fresh) train_split (val_split [1; 3])
           (VBool false) true (VStr "checkpoints") [] f0 0 w0).
  - exact fresh_ready.
  - reflexivity.
  - reflexivity.
Defined.

(** X18 on the engine constructed for the fresh run. *)
Lemma init_misc_attributes_witness :
  ∃ cfg model_cfg m misc,
    load_config fresh "resnet18" = Ok cfg ∧
    is_ok (subscript cfg "data") = true ∧
    is_ok (subscript cfg "train") = true ∧
    subscript cfg "model" = Ok model_cfg ∧
    model_builder_build fresh model_cfg = Ok (m, VDict misc) ∧
    is_Some (misc !! "model_name") ∧
    is_Some (misc !! "num_classes") ∧
    engine fresh !! "model_name" = misc !! "model_name" ∧
    engine fresh !! "num_classes" = misc !! "num_classes" ∧
    engine fresh !! "checkpoint" = Some (default VNone (misc !! "checkpoint")) ∧
    engine fresh !! "is_inception"
      = Some (default (VBool false) (misc !! "is_inception")).
Proof.
  apply (init_misc_attributes fresh "resnet18" "" w0 (engine fresh)
           (Engine.__init__ fresh "resnet18" "" w0).2).
  exact fresh_init.
Defined.

End Engine_examples.
